(** * FTP utility wrappers ([ftp/utils.py]): a shallow embedding

    The module is a thin layer over an FTP client object.  Its functions are
    embedded as computations over an explicit world (the connection, the
    local file system and a chronological trace of observable events); the
    FTP client itself is a parameter of the development (class [FTP]). *)

From Stdlib Require Import Ascii.
From stdpp Require Import base strings pretty list gmap sets.

(** ** Strings: the [str] methods the module uses *)

Module Str.

(** [s.rfind(c)] for a one-character [c]: the highest index of [c] in
    [s], or [-1]. *)
Fixpoint rfind (c : ascii) (s : string) : Z :=
  match s with
  | EmptyString => (-1)%Z
  | String a s' =>
      let r := rfind c s' in
      if (0 <=? r)%Z then (1 + r)%Z
      else if Ascii.eqb a c then 0%Z else (-1)%Z
  end.

(** [s[:i]] and [s[i:]] for [0 <= i]. *)
Definition slice_to (i : Z) (s : string) : string :=
  String.substring 0 (Z.to_nat i) s.

Definition slice_from (i : Z) (s : string) : string :=
  String.substring (Z.to_nat i) (String.length s - Z.to_nat i) s.

(** [s[i:i+1]]: the one-character slice at [i] (empty past the end). *)
Definition slice1 (i : Z) (s : string) : string :=
  String.substring (Z.to_nat i) 1 s.

Definition startswith (c : ascii) (s : string) : bool :=
  match s with
  | String a _ => Ascii.eqb a c
  | EmptyString => false
  end.

Fixpoint endswith (c : ascii) (s : string) : bool :=
  match s with
  | EmptyString => false
  | String a EmptyString => Ascii.eqb a c
  | String _ s' => endswith c s'
  end.

(** [s.lstrip(c)], [s.rstrip(c)] and [s.strip(c)] for a one-character
    set [c]. *)
Fixpoint lstrip (c : ascii) (s : string) : string :=
  match s with
  | String a s' => if Ascii.eqb a c then lstrip c s' else s
  | EmptyString => EmptyString
  end.

Fixpoint rstrip (c : ascii) (s : string) : string :=
  match s with
  | EmptyString => EmptyString
  | String a s' =>
      match rstrip c s' with
      | EmptyString => if Ascii.eqb a c then EmptyString else String a EmptyString
      | r => String a r
      end
  end.

Definition strip (c : ascii) (s : string) : string := rstrip c (lstrip c s).

(** [s.split(c)]: the pieces between the occurrences of [c].  There is
    always at least one piece, and a piece is empty exactly where two
    separators touch or the string begins or ends with one. *)
Fixpoint split (c : ascii) (s : string) : list string :=
  match s with
  | EmptyString => [EmptyString]
  | String a s' =>
      if Ascii.eqb a c then EmptyString :: split c s'
      else match split c s' with
           | seg :: rest => String a seg :: rest
           | [] => [String a EmptyString]
           end
  end.

(** [c * n]: the character [c], [n] times. *)
Fixpoint times (c : ascii) (n : nat) : string :=
  match n with
  | O => EmptyString
  | S n' => String c (times c n')
  end.

(** No two consecutive occurrences of [c]. *)
Fixpoint no_double (c : ascii) (s : string) : bool :=
  match s with
  | String a (String b _ as s') =>
      negb (Ascii.eqb a c && Ascii.eqb b c) && no_double c s'
  | _ => true
  end.

End Str.

(** ** [os.path] (POSIX flavour) *)

Module os_path.

(** The scan of [genericpath._splitext] over the leading dots of the
    last path component: [n] bounds the iterations left
    ([dotIndex - filenameIndex]). *)
Fixpoint splitext_scan (n : nat) (p : string) (filenameIndex dotIndex : Z)
  : option (string * string) :=
  match n with
  | O => None
  | S n' =>
      if negb (String.eqb (Str.slice1 filenameIndex p) ".")
      then Some (Str.slice_to dotIndex p, Str.slice_from dotIndex p)
      else splitext_scan n' p (filenameIndex + 1)%Z dotIndex
  end.

(** [os.path.splitext(p)]: the extension starts at the last dot of the
    last component, leading dots of that component not counting. *)
Definition splitext (p : string) : string * string :=
  let sepIndex := Str.rfind "/" p in
  let dotIndex := Str.rfind "." p in
  if (sepIndex <? dotIndex)%Z then
    match splitext_scan (Z.to_nat (dotIndex - (sepIndex + 1))) p
                        (sepIndex + 1)%Z dotIndex with
    | Some r => r
    | None => (p, EmptyString)
    end
  else (p, EmptyString).

(** [os.path.dirname(p)] and [os.path.basename(p)]: the two halves of
    [posixpath.split], the head without its trailing separators unless it
    is made of separators only. *)
Definition dirname (p : string) : string :=
  let i := (Str.rfind "/" p + 1)%Z in
  let head := Str.slice_to i p in
  if negb (String.eqb head "")
     && negb (String.eqb head (Str.times "/" (String.length head)))
  then Str.rstrip "/" head
  else head.

Definition basename (p : string) : string :=
  let i := (Str.rfind "/" p + 1)%Z in
  Str.slice_from i p.

(** [os.path.join(a, *p)]. *)
Definition join (a : string) (p : list string) : string :=
  fold_left
    (fun path b =>
       if Str.startswith "/" b then b
       else if String.eqb path "" || Str.endswith "/" path then path +:+ b
       else path +:+ "/" +:+ b)
    p a.

End os_path.

(** ** The unique-name loop of [get_unique_file_name_if_exists] *)

(** ['{}-{}{}'.format(root, suffix, ext)]. *)
Definition format_name (root : string) (suffix : nat) (ext : string) : string :=
  root +:+ "-" +:+ pretty suffix +:+ ext.

(** The [while newname in names] loop, at its head with the current
    [suffix] and [newname].  A Python [while] has no bound of its own:
    [fuel] bounds the iterations, and [None] says the bound was hit. *)
Fixpoint unique_name_loop (fuel : nat) (names : gset string) (file_name : string)
    (suffix : nat) (newname : string) : option string :=
  if decide (newname ∈ names) then
    match fuel with
    | O => None
    | S fuel' =>
        let '(root, ext) := os_path.splitext file_name in
        unique_name_loop fuel' names file_name (S suffix)
                         (format_name root suffix ext)
    end
  else Some newname.

(** The k-th renamed variant of a file name. *)
Definition variant (file_name : string) (k : nat) : string :=
  format_name (os_path.splitext file_name).1 k (os_path.splitext file_name).2.

(** ** Exceptions *)

(** The subclasses of [ftplib.Error]. *)
Inductive ftplib_error := error_reply | error_temp | error_perm | error_proto.

(** The exceptions that occur: [OSError] (with its subclasses, such as the
    socket errors), [EOFError], the [ftplib.Error] family,
    [tenacity.RetryError] carrying the outcome of the last attempt, and any
    other exception class, by name. *)
Inductive exn :=
| OSError (msg : string)
| EOFError
| FtplibError (kind : ftplib_error) (msg : string)
| RetryError (last_attempt : exn)
| OtherError (cls : string).

(** [isinstance(e, ftplib.all_errors)], with
    [ftplib.all_errors = (Error, OSError, EOFError)]. *)
Definition ftplib_all_errors (e : exn) : bool :=
  match e with
  | OSError _ | EOFError | FtplibError _ _ => true
  | RetryError _ | OtherError _ => false
  end.

(** ** The FTP client, a parameter *)

Definition bytes := list Byte.byte.

(** What a client method comes back with: a value, or an exception. *)
Inductive reply (A : Type) :=
| Done (v : A)
| Failed (e : exn).
Arguments Done {A} v.
Arguments Failed {A} e.

(** The methods of [ftplib.FTP] the module calls, as functions of the state
    of the session (client and server taken together).  A method may fail
    and may change the state even then.  [retrbinary] yields the chunks
    that arrived, in order, and how the transfer ended; [close] is not
    among the operations that fail; [ftp_pwd] observes the directory the
    session is positioned at. *)
Class FTP (conn : Type) := {
  ftp_connect : string → Z → Z → conn → reply unit * conn;
  ftp_login : string → string → conn → reply unit * conn;
  ftp_set_pasv : bool → conn → conn;
  ftp_cwd : string → conn → reply unit * conn;
  ftp_mkd : string → conn → reply unit * conn;
  ftp_nlst : string → conn → reply (list string) * conn;
  ftp_storbinary : string → bytes → conn → reply unit * conn;
  ftp_retrbinary : string → conn → list bytes * reply unit * conn;
  ftp_rename : string → string → conn → reply unit * conn;
  ftp_close : conn → conn;
  ftp_pwd : conn → string
}.

(** ** The world and its events *)

Inductive ftp_call :=
| Connect (host : string) (port timeout : Z)
| Login (user passwd : string)
| SetPasv (val : bool)
| Cwd (dirname : string)
| Mkd (dirname : string)
| Nlst (directory : string)
| Storbinary (cmd : string) (data : bytes)
| Retrbinary (cmd : string)
| Rename (fromname toname : string)
| Close.

Inductive event :=
| Ftp (c : ftp_call)
| Sleep (seconds : Z)
| LogError (e : exn)
| FileOpen (path mode : string)
| FileWrite (path : string) (chunk : bytes)
| FileClose (path : string)
| MakeDirs (path : string)
| HandlerCall (chunk : bytes).

(** A node of the local file system. *)
Inductive lnode :=
| LFile (content : bytes)
| LDir.

Record world (conn : Type) := World {
  ftp_client : conn;
  local : gmap string lnode;
  trace : list event
}.
Arguments World {conn} _ _ _.
Arguments ftp_client {conn} _.
Arguments local {conn} _.
Arguments trace {conn} _.

(** How a computation ends: with a value, with a raised exception, or not
    within the fuel it was given. *)
Inductive outcome (A : Type) :=
| Ok (v : A)
| Raise (e : exn)
| OutOfFuel.
Arguments Ok {A} v.
Arguments Raise {A} e.
Arguments OutOfFuel {A}.

Definition M (conn : Type) (A : Type) : Type := world conn → outcome A * world conn.

Definition ret {conn A} (v : A) : M conn A := λ w, (Ok v, w).

Definition bind {conn A B} (m : M conn A) (k : A → M conn B) : M conn B :=
  λ w, match m w with
       | (Ok v, w1) => k v w1
       | (Raise e, w1) => (Raise e, w1)
       | (OutOfFuel, w1) => (OutOfFuel, w1)
       end.

Definition raise {conn A} (e : exn) : M conn A := λ w, (Raise e, w).

Definition out_of_fuel {conn A} : M conn A := λ w, (OutOfFuel, w).

Declare Scope m_scope.
Delimit Scope m_scope with m.
Notation "x <- m ;; k" := (bind m (λ x, k))
  (at level 100, m at next level, right associativity) : m_scope.
Notation "m ;;; k" := (bind m (λ _, k))
  (at level 100, right associativity) : m_scope.
Local Open Scope m_scope.

Definition emit {conn} (e : event) : M conn unit :=
  λ w, (Ok tt, World (ftp_client w) (local w) (trace w ++ [e])).

(** [for x in l: body(x)]. *)
Fixpoint for_each {conn X} (l : list X) (body : X → M conn unit) : M conn unit :=
  match l with
  | [] => ret tt
  | x :: l' => body x ;;; for_each l' body
  end.

Definition of_reply {A} (r : reply A) : outcome A :=
  match r with
  | Done v => Ok v
  | Failed e => Raise e
  end.

(** ** The local file system and the logger *)

(** The character [c] occurs in [s]. *)
Fixpoint has_char (c : ascii) (s : string) : bool :=
  match s with
  | EmptyString => false
  | String a s' => Ascii.eqb a c || has_char c s'
  end.

Definition os_path_exists {conn} (p : string) : M conn bool :=
  λ w, (Ok (bool_decide (is_Some (local w !! p))), w).

Definition os_path_isfile {conn} (p : string) : M conn bool :=
  λ w, (Ok (match local w !! p with Some (LFile _) => true | _ => false end), w).

Definition os_makedirs {conn} (p : string) : M conn unit :=
  λ w, (Ok tt, World (ftp_client w) (<[p := LDir]> (local w)) (trace w ++ [MakeDirs p])).

(** [open(p, 'rb')] and reading the whole file. *)
Definition open_rb {conn} (p : string) : M conn bytes :=
  λ w, match local w !! p with
       | Some (LFile content) =>
           (Ok content, World (ftp_client w) (local w) (trace w ++ [FileOpen p "rb"]))
       | _ => (Raise (OSError ("cannot open " +:+ p)), w)
       end.

(** The map lists the nodes of the local file system by their paths, as the
    program spells them.  A directory is there when it is listed, or when a
    node is listed beneath it. *)
Definition listed_directory (fs : gmap string lnode) (d : string) : bool :=
  match fs !! d with
  | Some LDir => true
  | Some (LFile _) => false
  | None => existsb (λ node, String.prefix (d +:+ "/") node.1) (map_to_list fs)
  end.

(** The directory part [d] of a path names a directory that is there: the
    working directory (no directory part), the root, [.] and [..] always
    are. *)
Definition has_directory (fs : gmap string lnode) (d : string) : bool :=
  String.eqb (Str.rstrip "/" d) "" || String.eqb d "." || String.eqb d ".."
  || listed_directory fs d.

(** What [open(p, 'wb')] raises, when it raises: [ValueError] for a path
    with a null character; and an [OSError] for the empty path, for a path
    that names a directory, and for a path whose directory is not there
    ([FileNotFoundError], [IsADirectoryError] and [NotADirectoryError] are
    subclasses of [OSError]).  Permissions and limits of the file system are
    not modelled. *)
Definition open_wb_error (fs : gmap string lnode) (p : string) : option exn :=
  if has_char "000" p then Some (OtherError "ValueError")
  else if String.eqb p ""
  then Some (OSError "[Errno 2] No such file or directory: ''")
  else if String.eqb (os_path.basename p) "" || String.eqb (os_path.basename p) "."
          || String.eqb (os_path.basename p) ".." || listed_directory fs p
  then Some (OSError ("[Errno 21] Is a directory: '" +:+ p +:+ "'"))
  else if negb (has_directory fs (os_path.dirname p))
  then Some (OSError ("[Errno 2] No such file or directory: '" +:+ p +:+ "'"))
  else None.

(** [open(p, 'wb')]: the file is created, or truncated; the file object is
    known by its path. *)
Definition open_wb {conn} (p : string) : M conn string :=
  λ w, match open_wb_error (local w) p with
       | Some e => (Raise e, w)
       | None => (Ok p, World (ftp_client w) (<[p := LFile []]> (local w))
                           (trace w ++ [FileOpen p "wb"]))
       end.

Definition append_chunk (chunk : bytes) (n : lnode) : lnode :=
  match n with
  | LFile content => LFile (content ++ chunk)
  | LDir => LDir
  end.

(** [file.write(chunk)]: the file is a buffered writer, and the chunk goes
    to its buffer, not to the disk.  (A writer whose buffer fills up writes
    it out before the close; the properties below that speak of the disk
    while a file is open hold in that case too.) *)
Definition file_write {conn} (file : string) (chunk : bytes) : M conn unit :=
  emit (FileWrite file chunk).

(** What an event does to the buffer of the file object: opening the file
    for writing starts with an empty buffer, and a write to the file adds the
    chunk. *)
Definition buffer_step (file : string) (buffer : bytes) (e : event) : bytes :=
  match e with
  | FileOpen p mode =>
      if String.eqb p file && String.eqb mode "wb" then [] else buffer
  | FileWrite p chunk =>
      if String.eqb p file then buffer ++ chunk else buffer
  | _ => buffer
  end.

(** What the buffer of the file object holds after the events: the chunks
    written since the file was last opened for writing. *)
Definition buffered (file : string) (events : list event) : bytes :=
  foldl (buffer_step file) [] events.

(** [file.close()]: the buffer is flushed to the disk, and the file is
    closed. *)
Definition file_close {conn} (file : string) : M conn unit :=
  λ w, (Ok tt, World (ftp_client w)
                     (alter (append_chunk (buffered file (trace w))) file (local w))
                     (trace w ++ [FileClose file])).

(** [with open(p, 'rb') as file: body(file)]: the file is closed on the
    way out, however the body ends. *)
Definition with_open_rb {conn A} (p : string) (body : bytes → M conn A) : M conn A :=
  file <- open_rb p ;;
  λ w, match body file w with
       | (OutOfFuel, w1) => (OutOfFuel, w1)
       | (o, w1) => (o, World (ftp_client w1) (local w1) (trace w1 ++ [FileClose p]))
       end.

(** A download handler of a caller, as the tests write them: it takes the
    chunk and keeps it; the event records that it was handed the chunk. *)
Definition recording_handler {conn} (chunk : bytes) : M conn unit :=
  emit (HandlerCall chunk).

(** [logger.error(exc_val, exc_info=True)]. *)
Definition logger_error {conn} (e : exn) : M conn unit := emit (LogError e).

(** [time.sleep], as the retry policy calls it between attempts. *)
Definition sleep {conn} (seconds : Z) : M conn unit := emit (Sleep seconds).

(** ** Calling the client *)

Section Client.
Context {conn : Type} `{!FTP conn}.

(** A method call: it is recorded, the session moves to its new state, and
    a failure is raised as the exception it is. *)
Definition call {A} (c : ftp_call) (method : conn → reply A * conn) : M conn A :=
  λ w, let '(r, s) := method (ftp_client w) in
       (of_reply r, World s (local w) (trace w ++ [Ftp c])).

Definition connect (host : string) (port timeout : Z) : M conn unit :=
  call (Connect host port timeout) (ftp_connect host port timeout).
Definition login (user passwd : string) : M conn unit :=
  call (Login user passwd) (ftp_login user passwd).
Definition set_pasv (val : bool) : M conn unit :=
  call (SetPasv val) (λ s, (Done tt, ftp_set_pasv val s)).
Definition cwd (dirname : string) : M conn unit :=
  call (Cwd dirname) (ftp_cwd dirname).
Definition mkd (dirname : string) : M conn unit :=
  call (Mkd dirname) (ftp_mkd dirname).
Definition nlst (directory : string) : M conn (list string) :=
  call (Nlst directory) (ftp_nlst directory).
Definition storbinary (cmd : string) (data : bytes) : M conn unit :=
  call (Storbinary cmd data) (ftp_storbinary cmd data).
Definition rename (fromname toname : string) : M conn unit :=
  call (Rename fromname toname) (ftp_rename fromname toname).
Definition close : M conn unit :=
  call Close (λ s, (Done tt, ftp_close s)).

(** [retrbinary(cmd, callback)]: every chunk that arrives goes to the
    callback, in order; then the transfer's own end is reported. *)
Definition retrbinary (cmd : string) (callback : bytes → M conn unit) : M conn unit :=
  λ w, let '(chunks, r, s) := ftp_retrbinary cmd (ftp_client w) in
       (for_each chunks callback ;;; λ w', (of_reply r, w'))
         (World s (local w) (trace w ++ [Ftp (Retrbinary cmd)])).

(** ** The retry policy (lines 28-29) *)

(** One attempt and what follows it, in the manner of [tenacity]: a result
    is returned; an exception the predicate does not select is raised as it
    is; a selected one ends in [RetryError] around the last attempt when the
    stop condition holds ([reraise] is not set), and otherwise in a sleep of
    [wait] and the next attempt.  [remaining] counts the attempts
    [stop_after_attempt] still allows after the current one. *)
Fixpoint attempts {A} (remaining : nat) (wait : Z) (retry_on : exn → bool)
    (fn : M conn A) : M conn A :=
  λ w, match fn w with
       | (Raise e, w1) =>
           if retry_on e then
             match remaining with
             | O => (Raise (RetryError e), w1)
             | S remaining' =>
                 (sleep wait ;;; attempts remaining' wait retry_on fn) w1
             end
           else (Raise e, w1)
       | r => r
       end.

Definition stop_after_attempt (max_attempt_number : nat) : nat := max_attempt_number.
Definition wait_fixed (seconds : Z) : Z := seconds.
Definition retry_if_exception_type (exception_types : exn → bool) : exn → bool :=
  exception_types.

Definition tenacity_retry (stop : nat) (wait : Z) (retry_on : exn → bool)
    {A} (fn : M conn A) : M conn A :=
  attempts (stop - 1) wait retry_on fn.

Definition retry {A} : M conn A → M conn A :=
  tenacity_retry (stop_after_attempt 3) (wait_fixed 5)
                 (retry_if_exception_type ftplib_all_errors).

(** ** [FTPLogErrors] (lines 36-50) *)

(** [FTPLogErrors.__exit__]: the value says whether the exception is
    suppressed.  The method falls off its end, so it returns [None], which
    is false.  An exception object is true. *)
Definition FTPLogErrors__exit__ (exc_val : option exn) : M conn bool :=
  match exc_val with
  | Some e => logger_error e
  | None => ret tt
  end ;;;
  close ;;;
  ret false.

(** [with cm: body], for a context manager with the given [__exit__]. *)
Definition with_ (__exit__ : option exn → M conn bool) (body : M conn unit) : M conn unit :=
  λ w, match body w with
       | (Ok tt, w1) => (__exit__ None ;;; ret tt) w1
       | (Raise e, w1) =>
           (suppress <- __exit__ (Some e) ;;
            if suppress : bool then ret tt else raise e) w1
       | (OutOfFuel, w1) => (OutOfFuel, w1)
       end.

(** [with FTPLogErrors(ftp_client): body]. *)
Definition with_FTPLogErrors (body : M conn unit) : M conn unit :=
  with_ FTPLogErrors__exit__ body.

(** ** The module's functions *)

(** [list_files] (lines 192-198). *)
Definition list_files (directory : string) : M conn (list string) :=
  nlst directory.

(** [get_unique_file_name_if_exists] (lines 201-214). *)
Definition get_unique_file_name_if_exists (fuel : nat) (file_name directory : string)
  : M conn string :=
  names <- list_files directory ;;
  let names : gset string := list_to_set names in
  let suffix := 1 in
  let newname := file_name in
  match unique_name_loop fuel names file_name suffix newname with
  | Some newname => ret newname
  | None => out_of_fuel
  end.

(** [makedirs] (lines 158-170). *)
Definition makedirs (path base_directory : string) : M conn unit :=
  cwd base_directory ;;;
  let subpaths := Str.split "/" (Str.strip "/" path) in
  for_each subpaths (λ subpath, mkd subpath ;;; cwd subpath) ;;;
  cwd base_directory.

(** [connect_and_login] (lines 53-61). *)
Definition connect_and_login (host : string) (port : Z) (user passwd : string)
    (timeout : Z) : M conn unit :=
  retry (connect host port timeout ;;;
         login user passwd ;;;
         set_pasv true).

(** [_download] (lines 136-155). *)
Definition _download (local_file_path ftp_file_path : string)
    (download_handler : option (bytes → M conn unit)) : M conn unit :=
  sink <-
     match download_handler with
     | None =>
         file <- open_wb local_file_path ;;
         ret (Some file, file_write file)
     | Some handler => ret (None, handler)
     end ;;
  let '(file, download_handler) := sink in
  retrbinary ("RETR " +:+ ftp_file_path) download_handler ;;;
  match file with
  | Some file => file_close file
  | None => ret tt
  end.

(** [download_file] (lines 64-78). *)
Definition download_file (local_file_path ftp_file_path : string)
    (download_handler : option (bytes → M conn unit)) : M conn unit :=
  retry (_download local_file_path ftp_file_path download_handler).

(** The body of [upload_file] (lines 92-104), one attempt. *)
Definition upload_file_body (fuel : nat) (local_directory file_name ftp_directory : string)
    (rename_existing : bool) : M conn string :=
  let file_path := os_path.join local_directory [file_name] in
  e <- os_path_exists file_path ;;
  f <- os_path_isfile file_path ;;
  if negb e || negb f then raise (OSError ("Does not exist " +:+ file_path))
  else
    makedirs ftp_directory "/" ;;;
    cwd ftp_directory ;;;
    out_name <- (if negb rename_existing
                 then get_unique_file_name_if_exists fuel file_name ""
                 else ret file_name) ;;
    with_open_rb file_path (λ file, storbinary ("STOR " +:+ out_name) file) ;;;
    ret (os_path.join out_name []).

(** [upload_file] (lines 81-104), under [@retry]. *)
Definition upload_file (fuel : nat) (local_directory file_name ftp_directory : string)
    (rename_existing : bool) : M conn string :=
  retry (upload_file_body fuel local_directory file_name ftp_directory rename_existing).

(** The body of [download_directory] (lines 123-133), one attempt. *)
Definition download_directory_body (local_directory ftp_directory : string)
    (name_filter : option (string → bool))
    (download_handler : option (bytes → M conn unit)) : M conn unit :=
  e <- os_path_exists local_directory ;;
  (if negb e then os_makedirs local_directory else ret tt) ;;;
  cwd ftp_directory ;;;
  files <- list_files "" ;;
  for_each files (λ file,
    if match name_filter with
       | Some name_filter => negb (name_filter file)
       | None => false
       end
    then ret tt
    else _download (os_path.join local_directory [file]) file download_handler).

(** [download_directory] (lines 107-133), under [@retry]. *)
Definition download_directory (local_directory ftp_directory : string)
    (name_filter : option (string → bool))
    (download_handler : option (bytes → M conn unit)) : M conn unit :=
  retry (download_directory_body local_directory ftp_directory name_filter
                                 download_handler).

(** A computation that leaves the local file system as it is, however it
    ends. *)
Definition keeps_local {A} (m : M conn A) : Prop :=
  ∀ w, local (m w).2 = local w.

(** [move_file] (lines 173-189). *)
Definition move_file (fuel : nat) (ftp_src_directory ftp_dst_directory src_filename : string)
    (rename_existing : bool) : M conn string :=
  newname <- (if negb rename_existing
              then get_unique_file_name_if_exists fuel src_filename ftp_dst_directory
              else ret src_filename) ;;
  let oldpath := os_path.join ftp_src_directory [src_filename] in
  let newpath := os_path.join ftp_dst_directory [newname] in
  rename oldpath newpath ;;;
  ret newname.

End Client.

(** ** An in-memory server, after the stub the tests run against

    Every directory command succeeds, the working directory is the last
    directory changed to, and the files live in one flat store, in the
    order they were first stored.  Only ["127.0.0.1"] can be reached. *)

Module Stub.

Record t := Make {
  pwd : string;
  dirs : list string;
  files : list (string * bytes);
  connected : bool;
  passive : bool
}.

Definition initial : t := Make "/" [] [] false false.

Fixpoint store (name : string) (data : bytes) (fs : list (string * bytes))
  : list (string * bytes) :=
  match fs with
  | [] => [(name, data)]
  | (n, d) :: fs' =>
      if String.eqb n name then (name, data) :: fs' else (n, d) :: store name data fs'
  end.

Fixpoint fetch (name : string) (fs : list (string * bytes)) : option bytes :=
  match fs with
  | [] => None
  | (n, d) :: fs' => if String.eqb n name then Some d else fetch name fs'
  end.

Fixpoint remove (name : string) (fs : list (string * bytes)) : list (string * bytes) :=
  match fs with
  | [] => []
  | (n, d) :: fs' => if String.eqb n name then fs' else (n, d) :: remove name fs'
  end.

(** The argument of a command such as ["STOR name"]: what follows the verb
    and the blank. *)
Definition argument (cmd : string) : string := Str.slice_from 5 cmd.

Definition do_connect (host : string) (port timeout : Z) (s : t) : reply unit * t :=
  if String.eqb host "127.0.0.1"
  then (Done tt, Make (pwd s) (dirs s) (files s) true (passive s))
  else (Failed (OSError "Name or service not known"), s).

Definition do_cwd (d : string) (s : t) : reply unit * t :=
  (Done tt, Make d (dirs s) (files s) (connected s) (passive s)).

Definition do_mkd (d : string) (s : t) : reply unit * t :=
  (Done tt, Make (pwd s) (dirs s ++ [d]) (files s) (connected s) (passive s)).

Definition do_storbinary (cmd : string) (data : bytes) (s : t) : reply unit * t :=
  (Done tt, Make (pwd s) (dirs s) (store (argument cmd) data (files s))
                 (connected s) (passive s)).

Definition do_retrbinary (cmd : string) (s : t) : list bytes * reply unit * t :=
  match fetch (argument cmd) (files s) with
  | Some d => ([d], Done tt, s)
  | None => ([], Failed (FtplibError error_perm "550 No such file"), s)
  end.

Definition do_rename (a b : string) (s : t) : reply unit * t :=
  match fetch a (files s) with
  | Some d => (Done tt, Make (pwd s) (dirs s) (store b d (remove a (files s)))
                             (connected s) (passive s))
  | None => (Failed (FtplibError error_perm "550 No such file"), s)
  end.

#[global] Instance ftp : FTP t := {|
  ftp_connect := do_connect;
  ftp_login := λ _ _ s, (Done tt, s);
  ftp_set_pasv := λ val s, Make (pwd s) (dirs s) (files s) (connected s) val;
  ftp_cwd := do_cwd;
  ftp_mkd := do_mkd;
  ftp_nlst := λ _ s, (Done (files s).*1, s);
  ftp_storbinary := do_storbinary;
  ftp_retrbinary := do_retrbinary;
  ftp_rename := do_rename;
  ftp_close := λ s, Make (pwd s) (dirs s) (files s) false (passive s);
  ftp_pwd := pwd
|}.

(** The names in the store. *)
Definition names (s : t) : gset string := list_to_set (files s).*1.

End Stub.

(** ** A server with a directory tree

    Directories and files are known by their components from the root.  A
    name is resolved from the working directory unless it begins with a
    separator; [.] and an empty component stay where they are, [..] goes
    one up.  A directory that is there already cannot be made again, and
    one that is not there cannot be entered. *)

Module Tree.

Record t := Make {
  cwd : list string;
  dirs : list (list string);
  files : list (list string * bytes)
}.

Definition initial : t := Make [] [] [].

Definition enter (p : list string) (name : string) : list string :=
  if String.eqb name "" || String.eqb name "." then p
  else if String.eqb name ".." then removelast p
  else p ++ [name].

Definition resolve (path : string) (s : t) : list string :=
  fold_left enter (Str.split "/" path) (if Str.startswith "/" path then [] else cwd s).

Definition is_dir (p : list string) (s : t) : bool :=
  bool_decide (p = []) || bool_decide (p ∈ dirs s).

Fixpoint fetch (p : list string) (fs : list (list string * bytes)) : option bytes :=
  match fs with
  | [] => None
  | (q, d) :: fs' => if bool_decide (q = p) then Some d else fetch p fs'
  end.

Fixpoint store (p : list string) (data : bytes) (fs : list (list string * bytes))
  : list (list string * bytes) :=
  match fs with
  | [] => [(p, data)]
  | (q, d) :: fs' =>
      if bool_decide (q = p) then (p, data) :: fs' else (q, d) :: store p data fs'
  end.

Fixpoint remove (p : list string) (fs : list (list string * bytes))
  : list (list string * bytes) :=
  match fs with
  | [] => []
  | (q, d) :: fs' => if bool_decide (q = p) then fs' else (q, d) :: remove p fs'
  end.

(** The names of the entries of the directory [d] among the paths. *)
Definition children (d : list string) (paths : list (list string)) : list string :=
  omap (λ p, if bool_decide (removelast p = d) then last p else None) paths.

(** The working directory, as [PWD] reports it. *)
Definition pwd (s : t) : string := "/" +:+ String.concat "/" (cwd s).

Definition do_cwd (d : string) (s : t) : reply unit * t :=
  if is_dir (resolve d s) s
  then (Done tt, Make (resolve d s) (dirs s) (files s))
  else (Failed (FtplibError error_perm "550 Failed to change directory"), s).

Definition do_mkd (d : string) (s : t) : reply unit * t :=
  if is_dir (resolve d s) s || bool_decide (is_Some (fetch (resolve d s) (files s)))
  then (Failed (FtplibError error_perm "550 File exists"), s)
  else if is_dir (removelast (resolve d s)) s
  then (Done tt, Make (cwd s) (dirs s ++ [resolve d s]) (files s))
  else (Failed (FtplibError error_perm "550 No such file or directory"), s).

Definition do_nlst (d : string) (s : t) : reply (list string) * t :=
  if is_dir (resolve d s) s
  then (Done (children (resolve d s) (dirs s) ++ children (resolve d s) (files s).*1), s)
  else (Failed (FtplibError error_perm "550 No such file or directory"), s).

Definition do_storbinary (cmd : string) (data : bytes) (s : t) : reply unit * t :=
  let p := resolve (Stub.argument cmd) s in
  if negb (is_dir p s) && is_dir (removelast p) s
  then (Done tt, Make (cwd s) (dirs s) (store p data (files s)))
  else (Failed (FtplibError error_perm "553 Could not create file"), s).

Definition do_retrbinary (cmd : string) (s : t) : list bytes * reply unit * t :=
  match fetch (resolve (Stub.argument cmd) s) (files s) with
  | Some d => ([d], Done tt, s)
  | None => ([], Failed (FtplibError error_perm "550 No such file"), s)
  end.

Definition do_rename (a b : string) (s : t) : reply unit * t :=
  match fetch (resolve a s) (files s) with
  | Some d =>
      if negb (is_dir (resolve b s) s) && is_dir (removelast (resolve b s)) s
      then (Done tt, Make (cwd s) (dirs s)
                          (store (resolve b s) d (remove (resolve a s) (files s))))
      else (Failed (FtplibError error_perm "553 Could not create file"), s)
  | None => (Failed (FtplibError error_perm "550 No such file"), s)
  end.

#[global] Instance ftp : FTP t := {|
  ftp_connect := λ _ _ _ s, (Done tt, s);
  ftp_login := λ _ _ s, (Done tt, s);
  ftp_set_pasv := λ _ s, s;
  ftp_cwd := do_cwd;
  ftp_mkd := do_mkd;
  ftp_nlst := do_nlst;
  ftp_storbinary := do_storbinary;
  ftp_retrbinary := do_retrbinary;
  ftp_rename := do_rename;
  ftp_close := λ s, s;
  ftp_pwd := pwd
|}.

End Tree.

(** Worlds for the examples: a session with the stub, and a local disk that
    holds [test/data/sample.txt] or nothing. *)
Definition sample_bytes : bytes := String.list_byte_of_string "data".
Definition disk : gmap string lnode := {[ "test/data/sample.txt" := LFile sample_bytes ]}.
Definition w_stub : world Stub.t := World Stub.initial disk [].
Definition w_nofile : world Stub.t := World Stub.initial ∅ [].

(** The stub serving [sample.txt], as after [add_file] in the tests. *)
Definition sample_content : bytes := String.list_byte_of_string "Sample file".
Definition w_serving : world Stub.t :=
  World (Stub.Make "/" [] [("sample.txt", sample_content)] true true) ∅ [].

(** A session with the stub holding the given names already. *)
Definition w_holding (names : list string) : world Stub.t :=
  World (Stub.Make "/" [] ((λ n, (n, sample_bytes)) <$> names) true true) disk [].

(** ** A server that drops transfers

    The stub behind a connection that breaks: while [failures] is not zero
    a transfer is cut, a retrieval after the first [6] bytes have arrived and
    a store before anything is kept, and the reply is a [426]. *)

Module Flaky.

Record t := Make {
  failures : nat;
  server : Stub.t
}.

Definition lift {A} (r : reply A * Stub.t) (s : t) : reply A * t :=
  (r.1, Make (failures s) r.2).

Definition dropped : exn := FtplibError error_temp "426 Connection closed; transfer aborted".

Definition do_retrbinary (cmd : string) (s : t) : list bytes * reply unit * t :=
  match failures s with
  | O => let '(chunks, r, s') := Stub.do_retrbinary cmd (server s) in
         (chunks, r, Make O s')
  | S n =>
      match Stub.fetch (Stub.argument cmd) (Stub.files (server s)) with
      | Some d => ([take 6 d], Failed dropped, Make n (server s))
      | None => ([], Failed (FtplibError error_perm "550 No such file"), Make n (server s))
      end
  end.

Definition do_storbinary (cmd : string) (data : bytes) (s : t) : reply unit * t :=
  match failures s with
  | O => lift (Stub.do_storbinary cmd data (server s)) s
  | S n => (Failed dropped, Make n (server s))
  end.

#[global] Instance ftp : FTP t := {|
  ftp_connect := λ host port timeout s, lift (Stub.do_connect host port timeout (server s)) s;
  ftp_login := λ _ _ s, (Done tt, s);
  ftp_set_pasv := λ val s, Make (failures s) (ftp_set_pasv val (server s));
  ftp_cwd := λ d s, lift (Stub.do_cwd d (server s)) s;
  ftp_mkd := λ d s, lift (Stub.do_mkd d (server s)) s;
  ftp_nlst := λ d s, lift (ftp_nlst d (server s)) s;
  ftp_storbinary := do_storbinary;
  ftp_retrbinary := do_retrbinary;
  ftp_rename := λ a b s, lift (Stub.do_rename a b (server s)) s;
  ftp_close := λ s, Make (failures s) (ftp_close (server s));
  ftp_pwd := λ s, Stub.pwd (server s)
|}.

End Flaky.

(** ** A server that makes no directory

    The stub, but every [MKD] is refused: the directory is there already, or
    the user may not make it. *)

Module Refusing.

Record t := Make { server : Stub.t }.

Definition lift {A} (r : reply A * Stub.t) : reply A * t := (r.1, Make r.2).

Definition refused : exn := FtplibError error_perm "550 Create directory operation failed".

#[global] Instance ftp : FTP t := {|
  ftp_connect := λ host port timeout s, lift (Stub.do_connect host port timeout (server s));
  ftp_login := λ _ _ s, (Done tt, s);
  ftp_set_pasv := λ val s, Make (ftp_set_pasv val (server s));
  ftp_cwd := λ d s, lift (Stub.do_cwd d (server s));
  ftp_mkd := λ _ s, (Failed refused, s);
  ftp_nlst := λ d s, lift (ftp_nlst d (server s));
  ftp_storbinary := λ cmd data s, lift (Stub.do_storbinary cmd data (server s));
  ftp_retrbinary := λ cmd s,
    let '(chunks, r, s') := Stub.do_retrbinary cmd (server s) in (chunks, r, Make s');
  ftp_rename := λ a b s, lift (Stub.do_rename a b (server s));
  ftp_close := λ s, Make (ftp_close (server s));
  ftp_pwd := λ s, Stub.pwd (server s)
|}.

End Refusing.

(** A session with the server that has a tree, at its root and empty. *)
Definition w_tree : world Tree.t := World Tree.initial disk [].

(** A session with the refusing server. *)
Definition w_refusing : world Refusing.t :=
  World (Refusing.Make Stub.initial) disk [].

(** The flaky server serving [sample.txt], about to drop one transfer. *)
Definition w_flaky : world Flaky.t :=
  World (Flaky.Make 1 (Stub.Make "/" [] [("sample.txt", sample_content)] true true)) disk [].

(** The stub serving three files, as in the tests of [download_directory]. *)
Definition w_three : world Stub.t :=
  World (Stub.Make "/" []
           [("sample.txt", sample_content); ("sample.txt1", sample_content);
            ("sample.txt2", sample_content)] true true) ∅ [].

(** The name filter of the tests: no name with a ["2"] in it. *)
Definition no_two (name : string) : bool := negb (has_char "2" name).

(** The names of a listing that [download_directory] does not skip. *)
Definition accepted (name_filter : option (string → bool)) (files : list string)
  : list string :=
  List.filter (λ file, match name_filter with
                       | Some name_filter => name_filter file
                       | None => true
                       end) files.

(** The client calls among the events, in order. *)
Definition ftp_calls (events : list event) : list ftp_call :=
  omap (λ e, match e with Ftp c => Some c | _ => None end) events.

(** The local files opened among the events, in order. *)
Definition files_opened (events : list event) : list string :=
  omap (λ e, match e with FileOpen p _ => Some p | _ => None end) events.

(** A path names a regular file of the local file system. *)
Definition regular_file (fs : gmap string lnode) (p : string) : Prop :=
  ∃ content, fs !! p = Some (LFile content).

(** The calls [makedirs] makes when nothing fails. *)
Definition makedirs_calls (path base_directory : string) : list event :=
  [Ftp (Cwd base_directory)]
  ++ flat_map (λ subpath, [Ftp (Mkd subpath); Ftp (Cwd subpath)])
              (Str.split "/" (Str.strip "/" path))
  ++ [Ftp (Cwd base_directory)].


(** The sample upload of the tests, against the stub: the world it leaves. *)
Definition after_upload (rename_existing : bool) (w : world Stub.t) : world Stub.t :=
  (upload_file_body 3 "test/data" "sample.txt" "test/data/" rename_existing w).2.

(** The world after the retry policy's pause. *)
Definition paused {conn} (w : world conn) : world conn :=
  World (ftp_client w) (local w) (trace w ++ [Sleep 5]).

(** The worlds an attempt of a function under the retry policy can start
    from, in a call made at [w]: [w] itself; or, the first attempt having
    ended in an error of [ftplib.all_errors], the world it left, after the
    pause; or the same after the second attempt. *)
Definition attempt_start {conn A} (fn : M conn A) (w w0 : world conn) : Prop :=
  w0 = w
  ∨ ∃ e1 w1,
      fn w = (Raise e1, w1) ∧ ftplib_all_errors e1 = true
      ∧ (w0 = paused w1
         ∨ ∃ e2 w2,
             fn (paused w1) = (Raise e2, w2) ∧ ftplib_all_errors e2 = true
             ∧ w0 = paused w2).

(** * Properties *)

(** ** The definitions at work *)

Example splitext_sample : os_path.splitext "sample.txt" = ("sample", ".txt").
Proof. reflexivity. Qed.

Example splitext_leading_dot : os_path.splitext "dir.d/.bashrc" = ("dir.d/.bashrc", "").
Proof. reflexivity. Qed.

Example splitext_last_dot : os_path.splitext "a.tar.gz" = ("a.tar", ".gz").
Proof. reflexivity. Qed.

Example variant_sample : variant "sample.txt" 2 = "sample-2.txt".
Proof. reflexivity. Qed.

Example split_stripped : Str.split "/" (Str.strip "/" "test/data/") = ["test"; "data"].
Proof. reflexivity. Qed.

Example join_sample : os_path.join "test/data" ["sample.txt"] = "test/data/sample.txt".
Proof. reflexivity. Qed.

Example join_alone : os_path.join "sample-1.txt" [] = "sample-1.txt".
Proof. reflexivity. Qed.

Example unique_sample :
  unique_name_loop 5 {[ "sample.txt"; "sample-1.txt" ]} "sample.txt" 1 "sample.txt"
  = Some "sample-2.txt".
Proof. vm_compute. reflexivity. Qed.

Example unique_out_of_fuel :
  unique_name_loop 1 {[ "sample.txt"; "sample-1.txt" ]} "sample.txt" 1 "sample.txt"
  = None.
Proof. vm_compute. reflexivity. Qed.

(** The first upload of the tests, against the stub. *)
Example upload_sample :
  upload_file 3 "test/data" "sample.txt" "test/data/" false w_stub
  = (Ok "sample.txt",
     World (Stub.Make "test/data/" ["test"; "data"] [("sample.txt", sample_bytes)]
                      false false)
           disk
           [Ftp (Cwd "/"); Ftp (Mkd "test"); Ftp (Cwd "test"); Ftp (Mkd "data");
            Ftp (Cwd "data"); Ftp (Cwd "/"); Ftp (Cwd "test/data/"); Ftp (Nlst "");
            FileOpen "test/data/sample.txt" "rb";
            Ftp (Storbinary "STOR sample.txt" sample_bytes);
            FileClose "test/data/sample.txt"]).
Proof. vm_compute. reflexivity. Qed.

(** ** Strings and names *)

Lemma append_length (s t : string) :
  String.length (s +:+ t) = String.length s + String.length t.
Proof. induction s as [|a s IH]; simpl; [done | by rewrite IH]. Qed.

Lemma append_inj_r (s1 s2 t : string) : s1 +:+ t = s2 +:+ t → s1 = s2.
Proof.
  revert s2. induction s1 as [|a s1 IH]; intros [|b s2] H.
  - done.
  - apply (f_equal String.length) in H.
    rewrite !append_length in H. simpl in H. lia.
  - apply (f_equal String.length) in H.
    rewrite !append_length in H. simpl in H. lia.
  - cbn in H. injection H as -> H. f_equal. by apply IH.
Qed.

Lemma format_name_inj (root ext : string) (j k : nat) :
  format_name root j ext = format_name root k ext → j = k.
Proof.
  unfold format_name. intros H.
  apply String.app_inj in H.
  change ("-" +:+ pretty j +:+ ext) with (String "-" (pretty j +:+ ext)) in H.
  change ("-" +:+ pretty k +:+ ext) with (String "-" (pretty k +:+ ext)) in H.
  injection H as H. apply append_inj_r in H. by apply (inj pretty) in H.
Qed.

Lemma variant_inj (file_name : string) (j k : nat) :
  variant file_name j = variant file_name k → j = k.
Proof. apply format_name_inj. Qed.

(** ** The unique-name loop *)

Section UniqueName.
Variable names : gset string.
Variable file_name : string.

Lemma loop_free (fuel suffix : nat) (newname : string) :
  newname ∉ names →
  unique_name_loop fuel names file_name suffix newname = Some newname.
Proof. intros H. destruct fuel; simpl; by rewrite decide_False. Qed.

Lemma loop_taken (fuel suffix : nat) (newname : string) :
  newname ∈ names →
  unique_name_loop (S fuel) names file_name suffix newname
  = unique_name_loop fuel names file_name (S suffix) (variant file_name suffix).
Proof.
  intros H. simpl. rewrite decide_True by done.
  unfold variant. by destruct (os_path.splitext file_name).
Qed.

Lemma loop_reaches (k fuel suffix : nat) (newname : string) :
  newname ∈ names →
  (∀ j, suffix ≤ j < suffix + k → variant file_name j ∈ names) →
  variant file_name (suffix + k) ∉ names →
  k < fuel →
  unique_name_loop fuel names file_name suffix newname
  = Some (variant file_name (suffix + k)).
Proof.
  revert fuel suffix newname.
  induction k as [|k IH]; intros [|fuel] suffix newname Hin Hbelow Hfree Hfuel;
    try lia; rewrite loop_taken by done.
  - rewrite Nat.add_0_r in *. by apply loop_free.
  - replace (suffix + S k) with (S suffix + k) in * by lia.
    apply IH; [apply Hbelow; lia | intros j Hj; apply Hbelow; lia | done | lia].
Qed.

(** Pigeonhole: the first [size names + 1] variants cannot all be taken. *)
Lemma variants_not_all_taken :
  ¬ ∀ j, 1 ≤ j ≤ S (size names) → variant file_name j ∈ names.
Proof.
  intros Hall.
  pose (l := variant file_name <$> seq 1 (S (size names))).
  assert (NoDup l) as Hnd.
  { apply NoDup_fmap_2; [intros j k; apply variant_inj | apply NoDup_seq]. }
  assert (list_to_set l ⊆ names) as Hsub.
  { intros x Hx. apply elem_of_list_to_set in Hx.
    apply list_elem_of_fmap in Hx as (j & -> & Hj).
    apply elem_of_seq in Hj. apply Hall. lia. }
  apply subseteq_size in Hsub. rewrite size_list_to_set in Hsub by done.
  unfold l in Hsub. rewrite length_fmap, length_seq in Hsub. lia.
Qed.

Lemma first_free_variant :
  ∃ k, 1 ≤ k ≤ S (size names) ∧ (variant file_name k ∉ names)
       ∧ ∀ j, 1 ≤ j < k → variant file_name j ∈ names.
Proof.
  destruct (list_find (λ j, variant file_name j ∉ names) (seq 1 (S (size names))))
    as [[i k]|] eqn:Hfind.
  - apply list_find_Some in Hfind as (Hik & Hfree & Hmin).
    apply lookup_seq in Hik as [-> Hi]. exists (1 + i).
    split; [lia|]. split; [done|].
    intros j Hj. destruct (decide (variant file_name j ∈ names)) as [|Hn]; [done|].
    exfalso. apply (Hmin (j - 1) j); [|lia|done].
    apply lookup_seq. lia.
  - exfalso. apply variants_not_all_taken. intros j Hj.
    apply list_find_None in Hfind. rewrite Forall_forall in Hfind.
    destruct (decide (variant file_name j ∈ names)) as [|Hn]; [done|].
    exfalso. apply (Hfind j); [|done]. apply elem_of_seq. lia.
Qed.

Lemma unique_name_loop_spec :
  ∃ r, (∀ fuel, size names < fuel →
          unique_name_loop fuel names file_name 1 file_name = Some r)
       ∧ (r ∉ names)
       ∧ (file_name ∉ names → r = file_name)
       ∧ (file_name ∈ names →
          ∃ k, 1 ≤ k ≤ S (size names) ∧ r = variant file_name k
               ∧ ∀ j, 1 ≤ j < k → variant file_name j ∈ names).
Proof.
  destruct (decide (file_name ∈ names)) as [Hin|Hout].
  - destruct first_free_variant as (k & Hk & Hfree & Hmin).
    exists (variant file_name k). split_and!; [|done..|].
    + intros fuel Hfuel. replace k with (1 + (k - 1)) by lia.
      apply loop_reaches; [done | | |lia].
      * intros j Hj. apply Hmin. lia.
      * by replace (1 + (k - 1)) with k by lia.
    + intros _. by exists k.
  - exists file_name. split_and!; [|done..].
    intros fuel _. by apply loop_free.
Qed.

End UniqueName.

(** ** Splitting a path *)

Lemma split_cons (c : ascii) (s : string) :
  ∃ seg rest, Str.split c s = seg :: rest.
Proof.
  induction s as [|a s (seg & rest & IH)]; simpl; [by eauto|].
  destruct (Ascii.eqb a c); [by eauto|]. rewrite IH. by eauto.
Qed.

(** The first piece is empty only for an empty string or a leading
    separator. *)
Lemma split_head_nonempty (c : ascii) (s : string) seg rest :
  s ≠ "" → Str.startswith c s = false →
  Str.split c s = seg :: rest → seg ≠ "".
Proof.
  destruct s as [|a s]; [done|]. simpl. intros _ ->.
  destruct (split_cons c s) as (seg' & rest' & ->). by intros [= <- _].
Qed.

Lemma split_tail_nonempty (c : ascii) (s : string) :
  Str.no_double c s = true → Str.endswith c s = false →
  Forall (λ seg, seg ≠ "") (tail (Str.split c s)).
Proof.
  induction s as [|a s IH]; [by constructor|].
  intros Hdouble Hend. simpl.
  assert (Str.no_double c s = true) as Hdouble'.
  { simpl in Hdouble. destruct s; [done|]. by apply andb_true_iff in Hdouble as [_ ?]. }
  destruct (Ascii.eqb a c) eqn:Ha.
  - simpl. destruct s as [|b s]; [by simpl in Hend; rewrite Ha in Hend|].
    assert (Ascii.eqb b c = false) as Hb.
    { simpl in Hdouble. rewrite Ha in Hdouble. by destruct (Ascii.eqb b c). }
    destruct (split_cons c (String b s)) as (seg & rest & Hsplit).
    specialize (IH Hdouble' Hend). rewrite Hsplit in IH |- *. constructor; [|done].
    by eapply (split_head_nonempty c (String b s)).
  - assert (Str.endswith c s = false ∨ s = "") as [Hend'| ->].
    { destruct s; [by right|by left]. }
    + specialize (IH Hdouble' Hend').
      destruct (split_cons c s) as (seg & rest & Hsplit).
      by rewrite Hsplit in IH |- *.
    + by constructor.
Qed.

Lemma lstrip_startswith (c : ascii) (s : string) :
  Str.startswith c (Str.lstrip c s) = false.
Proof. induction s as [|a s IH]; [done|]. simpl. by destruct (Ascii.eqb a c) eqn:E; simpl; rewrite ?E. Qed.

Lemma rstrip_endswith (c : ascii) (s : string) :
  Str.endswith c (Str.rstrip c s) = false.
Proof.
  induction s as [|a s IH]; [done|]. simpl.
  destruct (Str.rstrip c s) as [|b r] eqn:E.
  - by destruct (Ascii.eqb a c) eqn:Ea; simpl; rewrite ?Ea.
  - done.
Qed.

Lemma rstrip_startswith (c : ascii) (s : string) :
  Str.startswith c s = false → Str.startswith c (Str.rstrip c s) = false.
Proof.
  destruct s as [|a s]; [done|]. simpl. intros Ha.
  destruct (Str.rstrip c s); by rewrite ?Ha; simpl.
Qed.

(** Once stripped, a path that is not empty and has no doubled separator
    splits into non-empty segments only. *)
Lemma segments_nonempty (path : string) :
  Str.strip "/" path ≠ "" →
  Str.no_double "/" (Str.strip "/" path) = true →
  Forall (λ seg, seg ≠ "") (Str.split "/" (Str.strip "/" path)).
Proof.
  intros Hne Hdouble.
  destruct (split_cons "/" (Str.strip "/" path)) as (seg & rest & Hsplit).
  pose proof (split_tail_nonempty "/" _ Hdouble (rstrip_endswith _ _)) as Htail.
  rewrite Hsplit in Htail |- *. constructor; [|done].
  eapply split_head_nonempty; [done| |done].
  apply rstrip_startswith, lstrip_startswith.
Qed.

(** ** Computations *)

Section Computations.
Context {conn : Type} `{!FTP conn}.

Lemma bind_ok {A B} (m : M conn A) (k : A → M conn B) w v w1 :
  m w = (Ok v, w1) → bind m k w = k v w1.
Proof. unfold bind. by intros ->. Qed.

Lemma bind_raise {A B} (m : M conn A) (k : A → M conn B) w e w1 :
  m w = (Raise e, w1) → bind m k w = (Raise e, w1).
Proof. unfold bind. by intros ->. Qed.

Lemma bind_inv_ok {A B} (m : M conn A) (k : A → M conn B) w v w' :
  bind m k w = (Ok v, w') →
  ∃ x w1, m w = (Ok x, w1) ∧ k x w1 = (Ok v, w').
Proof. unfold bind. destruct (m w) as [[x|e|] w1]; [by eauto|done|done]. Qed.

Lemma call_inv_ok {A} (c : ftp_call) (method : conn → reply A * conn) w v w' :
  call c method w = (Ok v, w') →
  method (ftp_client w) = (Done v, ftp_client w')
  ∧ local w' = local w ∧ trace w' = trace w ++ [Ftp c].
Proof.
  unfold call. destruct (method (ftp_client w)) as [[x|e] s]; simpl; [|done].
  by intros [= <- <-].
Qed.

Lemma call_done {A} (c : ftp_call) (method : conn → reply A * conn) w v s :
  method (ftp_client w) = (Done v, s) →
  call c method w = (Ok v, World s (local w) (trace w ++ [Ftp c])).
Proof. unfold call. by intros ->. Qed.

Lemma call_failed {A} (c : ftp_call) (method : conn → reply A * conn) w e s :
  method (ftp_client w) = (Failed e, s) →
  call c method w = (Raise e, World s (local w) (trace w ++ [Ftp c])).
Proof. unfold call. by intros ->. Qed.

(** *** The directory loop of [makedirs] *)

Lemma segments_trace (subpaths : list string) (w : world conn) :
  ∃ done,
    trace (for_each subpaths (λ subpath, mkd subpath ;;; cwd subpath) w).2
    = trace w ++ done
    ∧ done `prefix_of` flat_map (λ subpath, [Ftp (Mkd subpath); Ftp (Cwd subpath)]) subpaths
    ∧ (∀ w', for_each subpaths (λ subpath, mkd subpath ;;; cwd subpath) w = (Ok tt, w') →
             done = flat_map (λ subpath, [Ftp (Mkd subpath); Ftp (Cwd subpath)]) subpaths).
Proof.
  revert w. induction subpaths as [|d l IH]; intros w.
  - exists []. simpl. rewrite app_nil_r. by split_and!.
  - set (body := λ subpath, mkd subpath ;;; cwd subpath) in *.
    destruct (ftp_mkd d (ftp_client w)) as [[[]|e] s1] eqn:Hmkd.
    + destruct (ftp_cwd d s1) as [[[]|e] s2] eqn:Hcwd.
      * set (w2 := World s2 (local w) ((trace w ++ [Ftp (Mkd d)]) ++ [Ftp (Cwd d)])).
        assert (for_each (d :: l) body w = for_each l body w2) as ->.
        { simpl. unfold body at 1. unfold bind at 1 2, mkd at 1, cwd at 1, call.
          rewrite Hmkd. simpl. by rewrite Hcwd. }
        destruct (IH w2) as (done & Htrace & Hpre & Hok).
        exists (Ftp (Mkd d) :: Ftp (Cwd d) :: done). split_and!.
        -- rewrite Htrace. simpl. by rewrite <- !app_assoc.
        -- by do 2 apply prefix_cons.
        -- intros w' Hrun. simpl. by rewrite (Hok w' Hrun).
      * exists [Ftp (Mkd d); Ftp (Cwd d)].
        assert (for_each (d :: l) body w
                = (Raise e, World s2 (local w) ((trace w ++ [Ftp (Mkd d)]) ++ [Ftp (Cwd d)])))
          as ->.
        { simpl. unfold body at 1. unfold bind at 1 2, mkd at 1, cwd at 1, call.
          rewrite Hmkd. simpl. by rewrite Hcwd. }
        split_and!.
        -- simpl. by rewrite <- app_assoc.
        -- do 2 apply prefix_cons. apply prefix_nil.
        -- done.
    + exists [Ftp (Mkd d)].
      assert (for_each (d :: l) body w
              = (Raise e, World s1 (local w) (trace w ++ [Ftp (Mkd d)]))) as ->.
      { simpl. unfold body at 1. unfold bind at 1 2, mkd at 1, call. by rewrite Hmkd. }
      split_and!; [done | | done].
      apply prefix_cons, prefix_nil.
Qed.

Lemma makedirs_trace (path base_directory : string) (w : world conn) :
  ∃ done,
    trace (makedirs path base_directory w).2 = trace w ++ done
    ∧ done `prefix_of` makedirs_calls path base_directory
    ∧ (∀ w', makedirs path base_directory w = (Ok tt, w') →
             done = makedirs_calls path base_directory).
Proof.
  unfold makedirs_calls.
  set (subpaths := Str.split "/" (Str.strip "/" path)).
  set (steps := flat_map _ subpaths).
  destruct (ftp_cwd base_directory (ftp_client w)) as [[[]|e] s1] eqn:Hcwd.
  - set (w1 := World s1 (local w) (trace w ++ [Ftp (Cwd base_directory)])).
    assert (makedirs path base_directory w
            = (for_each subpaths (λ subpath, mkd subpath ;;; cwd subpath) ;;;
               cwd base_directory) w1) as ->.
    { unfold makedirs. unfold bind at 1, cwd at 1, call. by rewrite Hcwd. }
    destruct (segments_trace subpaths w1) as (done & Htrace & Hpre & Hok).
    fold steps in Hpre, Hok. unfold bind at 1.
    destruct (for_each _ _ w1) as [[[]|e|] w2] eqn:Hloop; simpl in Htrace.
    + rewrite (Hok w2 eq_refl) in Htrace.
      exists ([Ftp (Cwd base_directory)] ++ steps ++ [Ftp (Cwd base_directory)]).
      unfold cwd, call.
      destruct (ftp_cwd base_directory (ftp_client w2)) as [[[]|e] s3];
        simpl; rewrite Htrace; simpl; rewrite <- !app_assoc; by split_and!.
    + exists (Ftp (Cwd base_directory) :: done). simpl. rewrite Htrace. simpl.
      rewrite <- app_assoc. split; [done|]. split.
      * apply prefix_cons. destruct Hpre as [k ->]. rewrite <- app_assoc. by eexists.
      * intros w' Hrun. apply bind_inv_ok in Hrun as (? & ? & Hrun & _).
        by rewrite Hloop in Hrun.
    + exists (Ftp (Cwd base_directory) :: done). simpl. rewrite Htrace. simpl.
      rewrite <- app_assoc. split; [done|]. split.
      * apply prefix_cons. destruct Hpre as [k ->]. rewrite <- app_assoc. by eexists.
      * intros w' Hrun. apply bind_inv_ok in Hrun as (? & ? & Hrun & _).
        by rewrite Hloop in Hrun.
  - exists [Ftp (Cwd base_directory)].
    assert (makedirs path base_directory w
            = (Raise e, World s1 (local w) (trace w ++ [Ftp (Cwd base_directory)]))) as ->.
    { unfold makedirs. unfold bind at 1, cwd at 1, call. by rewrite Hcwd. }
    split_and!; [done | | done].
    apply prefix_cons, prefix_nil.
Qed.

Lemma makedirs_last_call (path base_directory : string) (w w' : world conn) :
  makedirs path base_directory w = (Ok tt, w') →
  ∃ s, ftp_cwd base_directory s = (Done tt, ftp_client w').
Proof.
  unfold makedirs. intros Hrun.
  apply bind_inv_ok in Hrun as (? & w1 & _ & Hrun).
  apply bind_inv_ok in Hrun as (? & w2 & _ & Hrun).
  apply call_inv_ok in Hrun as (Hcwd & _). by eauto.
Qed.

(** *** The retry policy *)

Lemma retry_unfold {A} (fn : M conn A) (w : world conn) :
  retry fn w =
  match fn w with
  | (Raise e1, w1) =>
      if ftplib_all_errors e1 then
        match fn (paused w1) with
        | (Raise e2, w2) =>
            if ftplib_all_errors e2 then
              match fn (paused w2) with
              | (Raise e3, w3) =>
                  if ftplib_all_errors e3 then (Raise (RetryError e3), w3)
                  else (Raise e3, w3)
              | r => r
              end
            else (Raise e2, w2)
        | r => r
        end
      else (Raise e1, w1)
  | r => r
  end.
Proof.
  unfold retry, tenacity_retry, stop_after_attempt, wait_fixed, retry_if_exception_type.
  simpl. destruct (fn w) as [[v|e1|] w1]; [done| |done].
  destruct (ftplib_all_errors e1); [|done].
  unfold bind at 1, sleep at 1, emit at 1. fold (paused w1).
  destruct (fn (paused w1)) as [[v|e2|] w2]; [done| |done].
  destruct (ftplib_all_errors e2); [|done].
  unfold bind at 1, sleep at 1, emit at 1. fold (paused w2).
  destruct (fn (paused w2)) as [[v|e3|] w3]; [done| |done].
  by destruct (ftplib_all_errors e3).
Qed.


(** An exception the predicate does not select is raised as it is, at
    once. *)
Lemma retry_not_selected {A} (fn : M conn A) (w : world conn) e w' :
  fn w = (Raise e, w') → ftplib_all_errors e = false → retry fn w = (Raise e, w').
Proof. intros H T. by rewrite retry_unfold, H, T. Qed.

(** *** The local precondition of [upload_file] *)

Lemma upload_file_body_no_file (fuel : nat) (local_directory file_name ftp_directory : string)
    (rename_existing : bool) (w : world conn) :
  ¬ regular_file (local w) (os_path.join local_directory [file_name]) →
  upload_file_body fuel local_directory file_name ftp_directory rename_existing w
  = (Raise (OSError ("Does not exist " +:+ os_path.join local_directory [file_name])), w).
Proof.
  intros Hno. unfold upload_file_body, bind, os_path_exists, os_path_isfile, raise.
  destruct (local w !! os_path.join local_directory [file_name]) as [[content|]|] eqn:E;
    simpl; try done.
  exfalso. apply Hno. by exists content.
Qed.

End Computations.

(** ** The unique-name resolver *)

(** C1. Whatever names [S] the directory lists, [get_unique_file_name_if_exists]
    returns a name outside [S]: the file name itself when it is free, and
    otherwise [root-k.ext], with [(root, ext)] the split of the file name, for
    the smallest [k >= 1] whose variant is free.  (Any fuel above the size of
    [S] is enough for the loop to end.) *)
Theorem get_unique_file_name_if_exists_spec {conn : Type} `{!FTP conn}
    (w : world conn) (file_name directory : string) (l : list string) (s : conn)
    (S : gset string) (fuel : nat) :
  ftp_nlst directory (ftp_client w) = (Done l, s) →
  S = list_to_set l →
  size S < fuel →
  ∃ r, get_unique_file_name_if_exists fuel file_name directory w
       = (Ok r, World s (local w) (trace w ++ [Ftp (Nlst directory)]))
     ∧ (r ∉ S)
     ∧ (file_name ∉ S → r = file_name)
     ∧ (file_name ∈ S →
        ∃ root ext k,
          os_path.splitext file_name = (root, ext) ∧ 1 ≤ k
          ∧ r = root +:+ "-" +:+ pretty k +:+ ext
          ∧ ∀ j, 1 ≤ j < k → root +:+ "-" +:+ pretty j +:+ ext ∈ S).
Proof.
  intros Hnlst -> Hfuel.
  destruct (unique_name_loop_spec (list_to_set l) file_name)
    as (r & Hloop & Hfree & Hsame & Hnext).
  exists r. split_and!; [|done..|].
  - unfold get_unique_file_name_if_exists, list_files, nlst.
    erewrite bind_ok by (by apply call_done).
    by rewrite (Hloop fuel Hfuel).
  - intros Hin. destruct (Hnext Hin) as (k & Hk & -> & Hmin).
    unfold variant, format_name in *.
    destruct (os_path.splitext file_name) as [root ext].
    exists root, ext, k. split_and!; [done|lia|done|done].
Qed.

Lemma get_unique_file_name_if_exists_spec_witness :
  ∃ r, get_unique_file_name_if_exists 3 "sample.txt" ""
         (w_holding ["sample.txt"; "sample-1.txt"])
       = (Ok r, World (ftp_client (w_holding ["sample.txt"; "sample-1.txt"])) disk
                      [Ftp (Nlst "")])
     ∧ (r ∉ ({[ "sample.txt"; "sample-1.txt" ]} : gset string))
     ∧ ("sample.txt" ∉ ({[ "sample.txt"; "sample-1.txt" ]} : gset string)
        → r = "sample.txt")
     ∧ ("sample.txt" ∈ ({[ "sample.txt"; "sample-1.txt" ]} : gset string) →
        ∃ root ext k,
          os_path.splitext "sample.txt" = (root, ext) ∧ 1 ≤ k
          ∧ r = root +:+ "-" +:+ pretty k +:+ ext
          ∧ ∀ j, 1 ≤ j < k →
                 root +:+ "-" +:+ pretty j +:+ ext
                 ∈ ({[ "sample.txt"; "sample-1.txt" ]} : gset string)).
Proof.
  apply (get_unique_file_name_if_exists_spec
           (w_holding ["sample.txt"; "sample-1.txt"]) "sample.txt" ""
           ["sample.txt"; "sample-1.txt"]).
  - reflexivity.
  - vm_compute. reflexivity.
  - vm_compute. lia.
Defined.

(** C10. The loop of [get_unique_file_name_if_exists] ends for every file
    name and every finite set of listed names: an iteration moves from the
    suffix [k] to [k + 1] and to the variant [root-k.ext] of the fixed
    original name, the variants are pairwise distinct, so one of the first
    [size names + 1] is not listed, and the loop returns within that many
    iterations. *)
Theorem unique_name_loop_terminates (names : gset string) (file_name : string)
    (fuel : nat) :
  size names < fuel →
  (∀ fuel' suffix newname,
     newname ∈ names →
     unique_name_loop (Datatypes.S fuel') names file_name suffix newname
     = unique_name_loop fuel' names file_name (Datatypes.S suffix)
                        (variant file_name suffix))
  ∧ (∀ j k, variant file_name j = variant file_name k → j = k)
  ∧ (∃ k, 1 ≤ k ≤ Datatypes.S (size names) ∧ variant file_name k ∉ names)
  ∧ is_Some (unique_name_loop fuel names file_name 1 file_name).
Proof.
  intros Hfuel. split_and!.
  - intros fuel' suffix newname. apply loop_taken.
  - apply variant_inj.
  - destruct (first_free_variant names file_name) as (k & Hk & Hfree & _). by eauto.
  - destruct (unique_name_loop_spec names file_name) as (r & Hloop & _).
    exists r. by apply Hloop.
Qed.

Lemma unique_name_loop_terminates_witness :
  is_Some (unique_name_loop 3 {[ "sample.txt"; "sample-1.txt" ]} "sample.txt" 1 "sample.txt").
Proof.
  apply (unique_name_loop_terminates {[ "sample.txt"; "sample-1.txt" ]} "sample.txt" 3).
  vm_compute. lia.
Defined.

(** ** The directory ensurer *)

(** C5, as the claim has it, fails for a base directory that is relative.
    On a server that resolves names from the working directory, a change to
    [.] (or to the empty name, which the client sends as [.]) stays where the
    session is: started at the root, [makedirs] with path [a/b] and base [.]
    returns normally with the session at the leaf [/a/b], which is neither
    the base it was given nor the directory the base named at the start. *)
Lemma makedirs_relative_base_ends_at_leaf :
  ftp_pwd (ftp_client w_tree) = "/"
  ∧ (makedirs "a/b" "." w_tree).1 = Ok tt
  ∧ ftp_pwd (ftp_client (makedirs "a/b" "." w_tree).2) = "/a/b"
  ∧ trace (makedirs "a/b" "." w_tree).2
    = [Ftp (Cwd "."); Ftp (Mkd "a"); Ftp (Cwd "a"); Ftp (Mkd "b"); Ftp (Cwd "b");
       Ftp (Cwd ".")]
  ∧ (makedirs "a/b" "" w_tree).1 = Ok tt
  ∧ ftp_pwd (ftp_client (makedirs "a/b" "" w_tree).2) = "/a/b".
Proof. vm_compute. by split_and!. Qed.

(** C5, amended. When [makedirs] returns normally, its calls were: change to
    the base directory, then for each segment of the path in order make it
    and change into it, then change to the base directory again; so, for a
    base directory at which a successful change of directory positions the
    session wherever it is issued from (an absolute path such as ["/"]), the
    session is positioned at the base directory, not at the leaf. *)
Theorem makedirs_returns_at_base {conn : Type} `{!FTP conn}
    (path base_directory : string) (w w' : world conn) :
  makedirs path base_directory w = (Ok tt, w') →
  (∀ s s', ftp_cwd base_directory s = (Done tt, s') → ftp_pwd s' = base_directory) →
  ftp_pwd (ftp_client w') = base_directory
  ∧ trace w' = trace w ++ makedirs_calls path base_directory.
Proof.
  intros Hrun Hcwd. split.
  - destruct (makedirs_last_call _ _ _ _ Hrun) as (s & Hlast). by eapply Hcwd.
  - destruct (makedirs_trace path base_directory w) as (done & Htrace & _ & Hok).
    rewrite Hrun in Htrace. simpl in Htrace. by rewrite Htrace, (Hok w' Hrun).
Qed.

Lemma makedirs_returns_at_base_witness :
  ftp_pwd (ftp_client (makedirs "test/data/" "/" w_tree).2) = "/"
  ∧ trace (makedirs "test/data/" "/" w_tree).2
    = [Ftp (Cwd "/"); Ftp (Mkd "test"); Ftp (Cwd "test");
       Ftp (Mkd "data"); Ftp (Cwd "data"); Ftp (Cwd "/")].
Proof.
  apply (makedirs_returns_at_base "test/data/" "/" w_tree).
  - vm_compute. reflexivity.
  - intros s s' H. cbn [ftp_cwd Tree.ftp] in H. unfold Tree.do_cwd in H.
    change (Tree.resolve "/" s) with (@nil string) in H.
    cbn in H. injection H as <-. reflexivity.
Defined.

(** C6, as the claim has it, fails: between two adjacent separators, and for
    an empty path, [split] yields an empty segment, and [makedirs] asks the
    server to make and enter it. *)
Lemma makedirs_makes_empty_segment :
  trace (makedirs "a//b" "/" w_stub).2
  = [Ftp (Cwd "/"); Ftp (Mkd "a"); Ftp (Cwd "a"); Ftp (Mkd ""); Ftp (Cwd "");
     Ftp (Mkd "b"); Ftp (Cwd "b"); Ftp (Cwd "/")]
  ∧ trace (makedirs "" "/" w_stub).2
    = [Ftp (Cwd "/"); Ftp (Mkd ""); Ftp (Cwd ""); Ftp (Cwd "/")]
  ∧ Ftp (Mkd "") ∈ trace (makedirs "a//b" "/" w_stub).2.
Proof.
  assert (trace (makedirs "a//b" "/" w_stub).2
          = [Ftp (Cwd "/"); Ftp (Mkd "a"); Ftp (Cwd "a"); Ftp (Mkd ""); Ftp (Cwd "");
             Ftp (Mkd "b"); Ftp (Cwd "b"); Ftp (Cwd "/")]) as H
    by (vm_compute; reflexivity).
  split; [done|]. split; [vm_compute; reflexivity|].
  rewrite H. apply list_elem_of_In. simpl. tauto.
Qed.

(** C6, amended. For a path that, once its leading and trailing separators
    are stripped, is not empty and has no two adjacent separators, the calls
    of [makedirs] are an initial part of: change to the base directory; make
    and enter each segment in order; change to the base directory; all of it
    when [makedirs] returns normally.  Every segment is non-empty, and no
    directory with an empty name is asked for. *)
Theorem makedirs_nonempty_segments {conn : Type} `{!FTP conn}
    (path base_directory : string) (w : world conn) :
  Str.strip "/" path ≠ "" →
  Str.no_double "/" (Str.strip "/" path) = true →
  ∃ done,
    trace (makedirs path base_directory w).2 = trace w ++ done
    ∧ done `prefix_of` makedirs_calls path base_directory
    ∧ (∀ w', makedirs path base_directory w = (Ok tt, w') →
             done = makedirs_calls path base_directory)
    ∧ Forall (λ subpath, subpath ≠ "") (Str.split "/" (Str.strip "/" path))
    ∧ (∀ d, Ftp (Mkd d) ∈ done →
            d ≠ "" ∧ d ∈ Str.split "/" (Str.strip "/" path)).
Proof.
  intros Hne Hdouble.
  destruct (makedirs_trace path base_directory w) as (done & Htrace & Hpre & Hok).
  pose proof (segments_nonempty path Hne Hdouble) as Hsegs.
  exists done. split_and!; [done..|].
  intros d Hd.
  assert (d ∈ Str.split "/" (Str.strip "/" path)) as Hin.
  { destruct Hpre as [k Hk]. unfold makedirs_calls in Hk.
    assert (Ftp (Mkd d) ∈ done ++ k) as Hall by (apply elem_of_app; by left).
    rewrite <- Hk in Hall.
    apply elem_of_app in Hall as [Hfirst|Hrest].
    { apply list_elem_of_In in Hfirst. by destruct Hfirst as [[=]|[]]. }
    apply elem_of_app in Hrest as [Hsteps|Hlast]; last first.
    { apply list_elem_of_In in Hlast. by destruct Hlast as [[=]|[]]. }
    apply list_elem_of_In, in_flat_map in Hsteps as (x & Hx & Hd').
    apply list_elem_of_In in Hx. simpl in Hd'.
    destruct Hd' as [[= ->]|[[=]|[]]]. done. }
  split; [|done]. rewrite Forall_forall in Hsegs. by apply Hsegs.
Qed.

Lemma makedirs_nonempty_segments_witness :
  ∃ done,
    trace (makedirs "/test/data/" "/" w_stub).2 = trace w_stub ++ done
    ∧ done `prefix_of` makedirs_calls "/test/data/" "/"
    ∧ (∀ w', makedirs "/test/data/" "/" w_stub = (Ok tt, w') →
             done = makedirs_calls "/test/data/" "/")
    ∧ Forall (λ subpath, subpath ≠ "") (Str.split "/" (Str.strip "/" "/test/data/"))
    ∧ (∀ d, Ftp (Mkd d) ∈ done →
            d ≠ "" ∧ d ∈ Str.split "/" (Str.strip "/" "/test/data/")).
Proof.
  apply (makedirs_nonempty_segments "/test/data/" "/" w_stub).
  - vm_compute. discriminate.
  - vm_compute. reflexivity.
Defined.

(** ** The retry policy *)

(** C3, as the claim has it, fails in its last part: once the attempts are
    used up, what reaches the caller is [tenacity.RetryError] around the last
    attempt, and no transport error at all.  Here the host cannot be
    reached, and each of the three attempts to connect ends in [OSError]. *)
Lemma retry_does_not_reraise_last_error :
  connect_and_login "invalidhost" 21 "" "" (-999) w_stub
  = (Raise (RetryError (OSError "Name or service not known")),
     World Stub.initial disk
           [Ftp (Connect "invalidhost" 21 (-999)); Sleep 5;
            Ftp (Connect "invalidhost" 21 (-999)); Sleep 5;
            Ftp (Connect "invalidhost" 21 (-999))])
  ∧ ∀ e, ftplib_all_errors e = true →
         (connect_and_login "invalidhost" 21 "" "" (-999) w_stub).1 ≠ Raise e.
Proof.
  assert (connect_and_login "invalidhost" 21 "" "" (-999) w_stub
          = (Raise (RetryError (OSError "Name or service not known")),
             World Stub.initial disk
                   [Ftp (Connect "invalidhost" 21 (-999)); Sleep 5;
                    Ftp (Connect "invalidhost" 21 (-999)); Sleep 5;
                    Ftp (Connect "invalidhost" 21 (-999))])) as H
    by (vm_compute; reflexivity).
  split; [done|]. intros e He. rewrite H. simpl. intros [= <-]. done.
Qed.

(** C3, amended. For every operation under the retry policy: when an
    attempt ends in a transport error the whole operation is run again after
    a pause of 5, the third attempt is the last, and when it too ends in a
    transport error the caller gets [RetryError] carrying that last error
    (the world is the one the third attempt left: two pauses, no fourth
    attempt). *)
Theorem retry_exhausted {conn : Type} `{!FTP conn} {A : Type}
    (fn : M conn A) (w w1 w2 w3 : world conn) (e1 e2 e3 : exn) :
  fn w = (Raise e1, w1) → ftplib_all_errors e1 = true →
  fn (paused w1) = (Raise e2, w2) → ftplib_all_errors e2 = true →
  fn (paused w2) = (Raise e3, w3) → ftplib_all_errors e3 = true →
  retry fn w = (Raise (RetryError e3), w3).
Proof.
  intros H1 T1 H2 T2 H3 T3.
  by rewrite retry_unfold, H1, T1, H2, T2, H3, T3.
Qed.

Lemma retry_exhausted_witness :
  retry (connect "invalidhost" 21 (-999) ;;; login "" "" ;;; set_pasv true) w_stub
  = (Raise (RetryError (OSError "Name or service not known")),
     World Stub.initial disk
           [Ftp (Connect "invalidhost" 21 (-999)); Sleep 5;
            Ftp (Connect "invalidhost" 21 (-999)); Sleep 5;
            Ftp (Connect "invalidhost" 21 (-999))]).
Proof.
  apply (retry_exhausted _ w_stub
           (World Stub.initial disk [Ftp (Connect "invalidhost" 21 (-999))])
           (World Stub.initial disk
                  [Ftp (Connect "invalidhost" 21 (-999)); Sleep 5;
                   Ftp (Connect "invalidhost" 21 (-999))])
           _
           (OSError "Name or service not known")
           (OSError "Name or service not known")
           (OSError "Name or service not known"));
    vm_compute; reflexivity.
Defined.

(** ** The local precondition of [upload_file] *)

Section NoLocalFile.
Context {conn : Type} `{!FTP conn}.
Variables (fuel : nat) (local_directory file_name ftp_directory : string).
Variable rename_existing : bool.
Variable w : world conn.
Hypothesis no_file :
  ¬ regular_file (local w) (os_path.join local_directory [file_name]).

Lemma upload_file_no_file :
  upload_file fuel local_directory file_name ftp_directory rename_existing w
  = (Raise (RetryError
              (OSError ("Does not exist " +:+ os_path.join local_directory [file_name]))),
     World (ftp_client w) (local w) (trace w ++ [Sleep 5; Sleep 5])).
Proof.
  unfold upload_file. rewrite retry_unfold.
  rewrite upload_file_body_no_file by done. simpl.
  rewrite upload_file_body_no_file by done. simpl.
  rewrite upload_file_body_no_file by done. simpl.
  unfold paused. simpl. by rewrite <- app_assoc.
Qed.

(** C2: the code does not do what the claim says.  The error for a missing
    local file is an [OSError], which [ftplib.all_errors] contains: the
    policy retries it.  The call makes three attempts with two pauses of 5
    between them, and ends in [RetryError]. *)
Theorem upload_file_no_file_is_retried :
  upload_file fuel local_directory file_name ftp_directory rename_existing w
  = (Raise (RetryError
              (OSError ("Does not exist " +:+ os_path.join local_directory [file_name]))),
     World (ftp_client w) (local w) (trace w ++ [Sleep 5; Sleep 5]))
  ∧ ftplib_all_errors
      (OSError ("Does not exist " +:+ os_path.join local_directory [file_name])) = true.
Proof. split; [apply upload_file_no_file | done]. Qed.

(** C4: the code does not do what the claim says, in its first half.  When
    the local file does not exist or is not a regular file, an attempt of
    [upload_file] raises the local precondition error and leaves the world as
    it was; but [upload_file] is under the retry policy, which selects that
    [OSError] (see C2): what the caller gets is not the precondition error
    but [RetryError] around it, after three attempts.  The second half
    holds: the session is in the state it had, and no client method was
    called: no directory made, no change of directory, no file stored. *)
Theorem upload_file_no_file_no_remote_effect :
  upload_file_body fuel local_directory file_name ftp_directory rename_existing w
  = (Raise (OSError ("Does not exist " +:+ os_path.join local_directory [file_name])), w)
  ∧ ∃ e w',
      upload_file fuel local_directory file_name ftp_directory rename_existing w
      = (Raise e, w')
      ∧ e = RetryError
              (OSError ("Does not exist " +:+ os_path.join local_directory [file_name]))
      ∧ ftp_client w' = ftp_client w
      ∧ local w' = local w
      ∧ ∀ c, Ftp c ∈ trace w' → Ftp c ∈ trace w.
Proof.
  split; [by apply upload_file_body_no_file|].
  eexists _, _. split; [apply upload_file_no_file|]. split_and!; [done..|].
  simpl. intros c Hc. apply elem_of_app in Hc as [Hc|Hc]; [done|].
  apply list_elem_of_In in Hc. by destruct Hc as [[=]|[[=]|[]]].
Qed.

End NoLocalFile.

Lemma upload_file_no_file_is_retried_witness :
  upload_file 3 "test/data" "sample.txt" "test/data/" false w_nofile
  = (Raise (RetryError (OSError "Does not exist test/data/sample.txt")),
     World Stub.initial ∅ [Sleep 5; Sleep 5])
  ∧ ftplib_all_errors (OSError "Does not exist test/data/sample.txt") = true.
Proof.
  apply (upload_file_no_file_is_retried 3 "test/data" "sample.txt" "test/data/" false
                                        w_nofile).
  intros [content H]. vm_compute in H. discriminate.
Defined.

Lemma upload_file_no_file_no_remote_effect_witness :
  upload_file_body 3 "test/data" "sample.txt" "test/data/" false w_nofile
  = (Raise (OSError "Does not exist test/data/sample.txt"), w_nofile)
  ∧ ∃ e w',
      upload_file 3 "test/data" "sample.txt" "test/data/" false w_nofile = (Raise e, w')
      ∧ e = RetryError (OSError "Does not exist test/data/sample.txt")
      ∧ ftp_client w' = Stub.initial
      ∧ local w' = ∅
      ∧ ∀ c, Ftp c ∈ trace w' → Ftp c ∈ [].
Proof.
  apply (upload_file_no_file_no_remote_effect 3 "test/data" "sample.txt" "test/data/"
                                              false w_nofile).
  intros [content H]. vm_compute in H. discriminate.
Defined.

(** ** The resource guard *)

(** C8. However the guarded scope ends, with a value or with an error, the
    connection is closed as the last thing; an error is logged first; and the
    scope's own outcome is what the caller gets: the same error propagates,
    the guard suppresses nothing. *)
Theorem FTPLogErrors_closes_logs_reraises {conn : Type} `{!FTP conn}
    (body : M conn unit) (w w1 : world conn) (o : outcome unit) :
  body w = (o, w1) →
  o ≠ OutOfFuel →
  with_FTPLogErrors body w
  = (o, World (ftp_close (ftp_client w1)) (local w1)
              (trace w1 ++ match o with
                           | Raise e => [LogError e; Ftp Close]
                           | _ => [Ftp Close]
                           end))
  ∧ ∀ exc_val w0, (FTPLogErrors__exit__ exc_val w0).1 = Ok false.
Proof.
  intros Hbody Hfuel. split.
  - unfold with_FTPLogErrors, with_. rewrite Hbody.
    destruct o as [[]|e|]; [| |done].
    + reflexivity.
    + unfold FTPLogErrors__exit__, bind, logger_error, emit, close, call, ret, raise.
      simpl. by rewrite <- app_assoc.
  - by intros [e|] w0.
Qed.

Lemma FTPLogErrors_closes_logs_reraises_witness :
  with_FTPLogErrors (upload_file 3 "test/data" "sample.txt" "test/data/" false ;;; ret tt)
                    w_nofile
  = (Raise (RetryError (OSError "Does not exist test/data/sample.txt")),
     World Stub.initial ∅
           [Sleep 5; Sleep 5;
            LogError (RetryError (OSError "Does not exist test/data/sample.txt"));
            Ftp Close])
  ∧ ∀ exc_val (w0 : world Stub.t), (FTPLogErrors__exit__ exc_val w0).1 = Ok false.
Proof.
  assert ((upload_file 3 "test/data" "sample.txt" "test/data/" false ;;; ret tt) w_nofile
          = (Raise (RetryError (OSError "Does not exist test/data/sample.txt")),
             World Stub.initial ∅ [Sleep 5; Sleep 5])) as Hbody
    by (vm_compute; reflexivity).
  exact (FTPLogErrors_closes_logs_reraises _ _ _ _ Hbody ltac:(discriminate)).
Defined.

(** ** The single-file download *)

Lemma buffer_step_writes (file : string) (chunks : list bytes) (buffer : bytes) :
  foldl (buffer_step file) buffer (FileWrite file <$> chunks) = buffer ++ concat chunks.
Proof.
  revert buffer. induction chunks as [|c chunks IH]; intros buffer.
  - simpl. by rewrite app_nil_r.
  - cbn [fmap list_fmap foldl buffer_step]. rewrite String.eqb_refl.
    change (list_fmap _ _ (FileWrite file) chunks) with (FileWrite file <$> chunks).
    rewrite IH. simpl. by rewrite <- app_assoc.
Qed.

Lemma buffer_step_calls (file : string) (middle : list event) (buffer : bytes) :
  (∀ e, e ∈ middle → ∃ c, e = Ftp c) →
  foldl (buffer_step file) buffer middle = buffer.
Proof.
  revert buffer. induction middle as [|e middle IH]; intros buffer Hmiddle; [done|].
  cbn [foldl]. destruct (Hmiddle e) as [c ->]; [by left|].
  apply IH. intros e' He'. apply Hmiddle. by right.
Qed.

Lemma buffered_writes (file : string) (events middle : list event) (chunks : list bytes) :
  (∀ e, e ∈ middle → ∃ c, e = Ftp c) →
  buffered file (events ++ [FileOpen file "wb"] ++ middle ++ (FileWrite file <$> chunks))
  = concat chunks.
Proof.
  intros Hmiddle. unfold buffered. rewrite !foldl_app.
  rewrite buffer_step_writes, buffer_step_calls by done.
  cbn [foldl buffer_step]. by rewrite String.eqb_refl.
Qed.

(** A node listed beneath a directory keeps the directory there. *)
Lemma listed_directory_insert (fs : gmap string lnode) (d p : string) (content : bytes) :
  listed_directory fs d = true → d ≠ p →
  listed_directory (<[p := LFile content]> fs) d = true.
Proof.
  unfold listed_directory. intros H Hne. rewrite lookup_insert_ne by done.
  destruct (fs !! d) as [[|]|]; [done..|].
  apply existsb_exists in H as ([k v] & Hin & Hprefix). simpl in Hprefix.
  apply list_elem_of_In, elem_of_map_to_list in Hin.
  apply existsb_exists.
  destruct (decide (k = p)) as [->|Hk].
  - exists (p, LFile content). split; [|done].
    apply list_elem_of_In, elem_of_map_to_list. apply lookup_insert_eq.
  - exists (k, v). split; [|done].
    apply list_elem_of_In, elem_of_map_to_list. by rewrite lookup_insert_ne.
Qed.

(** A file that could be opened for writing can be opened again. *)
Lemma open_wb_error_again (fs : gmap string lnode) (p : string) (content : bytes) :
  open_wb_error fs p = None → open_wb_error (<[p := LFile content]> fs) p = None.
Proof.
  unfold open_wb_error. destruct (has_char "000" p); [done|].
  destruct (String.eqb p ""); [done|].
  destruct (String.eqb (os_path.basename p) ""); [done|].
  destruct (String.eqb (os_path.basename p) "."); [done|].
  destruct (String.eqb (os_path.basename p) ".."); [done|]. cbn [orb].
  destruct (listed_directory fs p) eqn:Hp; [done|].
  assert (listed_directory (<[p := LFile content]> fs) p = false) as ->.
  { unfold listed_directory. by rewrite lookup_insert_eq. }
  destruct (has_directory fs (os_path.dirname p)) eqn:Hd; [|done]. intros _.
  assert (has_directory (<[p := LFile content]> fs) (os_path.dirname p) = true) as ->; [|done].
  unfold has_directory in *.
  destruct (String.eqb (Str.rstrip "/" (os_path.dirname p)) ""); [done|].
  destruct (String.eqb (os_path.dirname p) "."); [done|].
  destruct (String.eqb (os_path.dirname p) ".."); [done|]. cbn [orb] in *.
  apply listed_directory_insert; [done|]. intros Heq. rewrite Heq in Hd. congruence.
Qed.

Section Download.
Context {conn : Type} `{!FTP conn}.

Lemma write_chunks (file : string) (chunks : list bytes) (s : conn)
    (fs : gmap string lnode) (tr : list event) :
  for_each chunks (file_write file) (World s fs tr)
  = (Ok tt, World s fs (tr ++ (FileWrite file <$> chunks))).
Proof.
  revert tr. induction chunks as [|c chunks IH]; intros tr; simpl.
  - unfold ret. by rewrite app_nil_r.
  - unfold bind at 1, file_write at 1, emit. simpl.
    rewrite IH. by rewrite <- app_assoc.
Qed.

Lemma open_wb_ok (p : string) (w : world conn) :
  open_wb_error (local w) p = None →
  open_wb p w
  = (Ok p, World (ftp_client w) (<[p := LFile []]> (local w))
                 (trace w ++ [FileOpen p "wb"])).
Proof. unfold open_wb. by intros ->. Qed.

Lemma open_wb_failed (p : string) (w : world conn) (e : exn) :
  open_wb_error (local w) p = Some e → open_wb p w = (Raise e, w).
Proof. unfold open_wb. by intros ->. Qed.

Lemma retrbinary_unfold (cmd : string) (callback : bytes → M conn unit)
    (w : world conn) chunks r s :
  ftp_retrbinary cmd (ftp_client w) = (chunks, r, s) →
  retrbinary cmd callback w
  = (for_each chunks callback ;;; λ w', (of_reply r, w'))
      (World s (local w) (trace w ++ [Ftp (Retrbinary cmd)])).
Proof. unfold retrbinary. by intros ->. Qed.

Lemma record_chunks (chunks : list bytes) (s : conn) (fs : gmap string lnode)
    (tr : list event) :
  for_each chunks recording_handler (World s fs tr)
  = (Ok tt, World s fs (tr ++ (HandlerCall <$> chunks))).
Proof.
  revert tr. induction chunks as [|c chunks IH]; intros tr; simpl.
  - unfold ret. by rewrite app_nil_r.
  - unfold bind at 1, recording_handler at 1, emit. simpl.
    rewrite IH. by rewrite <- app_assoc.
Qed.

(** A download to a file that can be opened: what has arrived is written to
    the file object, and reaches the disk when the file is closed, which is
    when the transfer has completed. *)
Lemma download_to_file (local_file_path ftp_file_path : string) (w : world conn)
    (chunks : list bytes) (r : reply unit) (s : conn) :
  ftp_retrbinary ("RETR " +:+ ftp_file_path) (ftp_client w) = (chunks, r, s) →
  open_wb_error (local w) local_file_path = None →
  _download local_file_path ftp_file_path None w
  = (of_reply r,
     World s (<[local_file_path := LFile match r with
                                         | Done _ => concat chunks
                                         | Failed _ => []
                                         end]> (local w))
           (trace w
            ++ [FileOpen local_file_path "wb"; Ftp (Retrbinary ("RETR " +:+ ftp_file_path))]
            ++ (FileWrite local_file_path <$> chunks)
            ++ match r with
               | Done _ => [FileClose local_file_path]
               | Failed _ => []
               end)).
Proof.
  intros Hretr Hopen. unfold _download.
  erewrite bind_ok; last first.
  { erewrite bind_ok by (by apply open_wb_ok). reflexivity. }
  simpl. destruct r as [[]|e].
  - erewrite bind_ok; last first.
    { erewrite retrbinary_unfold by done.
      erewrite bind_ok by apply write_chunks. reflexivity. }
    unfold file_close. cbn [ftp_client local trace].
    assert (((trace w ++ [FileOpen local_file_path "wb"])
             ++ [Ftp (Retrbinary ("RETR " +:+ ftp_file_path))])
            ++ (FileWrite local_file_path <$> chunks)
            = trace w ++ [FileOpen local_file_path "wb"]
              ++ [Ftp (Retrbinary ("RETR " +:+ ftp_file_path))]
              ++ (FileWrite local_file_path <$> chunks)) as ->
      by (by rewrite <- !app_assoc).
    rewrite buffered_writes; last first.
    { intros e' He'. apply list_elem_of_In in He'. destruct He' as [<-|[]]. by eexists. }
    rewrite alter_insert_eq. simpl. by rewrite <- !app_assoc.
  - erewrite bind_raise; last first.
    { erewrite retrbinary_unfold by done.
      erewrite bind_ok by apply write_chunks. reflexivity. }
    simpl. rewrite app_nil_r. by rewrite <- !app_assoc.
Qed.

(** X7. When the transfer fails, the file [_download] opened is not closed:
    the exception leaves the function before [file.close()].  The chunks
    that had arrived were written to the file object, whose buffer nobody
    flushes: the local file is there, created or truncated, and holds at
    most a beginning of what had arrived.  No other local file is
    touched. *)
Lemma download_failed_leaves_file_open (local_file_path ftp_file_path : string)
    (w : world conn) (chunks : list bytes) (e : exn) (s : conn) :
  ftp_retrbinary ("RETR " +:+ ftp_file_path) (ftp_client w) = (chunks, Failed e, s) →
  open_wb_error (local w) local_file_path = None →
  ∃ w' content,
    _download local_file_path ftp_file_path None w = (Raise e, w')
    ∧ ftp_client w' = s
    ∧ trace w'
      = trace w
        ++ [FileOpen local_file_path "wb"; Ftp (Retrbinary ("RETR " +:+ ftp_file_path))]
        ++ (FileWrite local_file_path <$> chunks)
    ∧ local w' !! local_file_path = Some (LFile content)
    ∧ content `prefix_of` concat chunks
    ∧ ∀ p, p ≠ local_file_path → local w' !! p = local w !! p.
Proof.
  intros Hretr Hopen. eexists _, [].
  split; [exact (download_to_file _ _ _ _ _ _ Hretr Hopen)|].
  cbn [ftp_client local trace].
  split_and!.
  - done.
  - by rewrite app_nil_r.
  - apply lookup_insert_eq.
  - apply prefix_nil.
  - intros p Hp. by rewrite lookup_insert_ne.
Qed.

(** C9. Let the transfer of the remote file arrive as [chunks] and complete.
    Without a handler, [_download] opens the local file for binary writing;
    where the file cannot be opened, the error of [open] is raised and
    nothing is transferred; otherwise every chunk is written to the file in
    order, and the file is closed once the transfer is over: it then holds
    the chunks, one after the other.  With a handler of the caller, the
    chunks go to the handler in the order they arrived and nothing else
    happens: no file is opened and none is closed. *)
Theorem download_sink (local_file_path ftp_file_path : string) (w : world conn)
    (chunks : list bytes) (s : conn) :
  ftp_retrbinary ("RETR " +:+ ftp_file_path) (ftp_client w) = (chunks, Done tt, s) →
  _download local_file_path ftp_file_path None w
  = match open_wb_error (local w) local_file_path with
    | None =>
        (Ok tt,
         World s (<[local_file_path := LFile (concat chunks)]> (local w))
               (trace w
                ++ [FileOpen local_file_path "wb";
                    Ftp (Retrbinary ("RETR " +:+ ftp_file_path))]
                ++ (FileWrite local_file_path <$> chunks)
                ++ [FileClose local_file_path]))
    | Some e => (Raise e, w)
    end
  ∧ (∀ handler,
       _download local_file_path ftp_file_path (Some handler) w
       = (for_each chunks handler ;;; ret tt)
           (World s (local w) (trace w ++ [Ftp (Retrbinary ("RETR " +:+ ftp_file_path))])))
  ∧ _download local_file_path ftp_file_path (Some recording_handler) w
    = (Ok tt,
       World s (local w)
             (trace w ++ [Ftp (Retrbinary ("RETR " +:+ ftp_file_path))]
              ++ (HandlerCall <$> chunks))).
Proof.
  intros Hretr.
  assert (∀ handler,
            _download local_file_path ftp_file_path (Some handler) w
            = (for_each chunks handler ;;; ret tt)
                (World s (local w)
                       (trace w ++ [Ftp (Retrbinary ("RETR " +:+ ftp_file_path))])))
    as Hhandler.
  { intros handler. unfold _download.
    erewrite bind_ok by reflexivity. simpl.
    unfold bind at 1. erewrite retrbinary_unfold by done.
    unfold bind. by destruct (for_each chunks handler _) as [[[]|e|] w']. }
  split_and!; [|done|].
  - destruct (open_wb_error (local w) local_file_path) as [e|] eqn:Hopen.
    + unfold _download. erewrite bind_raise; [reflexivity|].
      erewrite bind_raise; [reflexivity|]. by apply open_wb_failed.
    + by rewrite (download_to_file _ _ _ _ _ _ Hretr Hopen).
  - rewrite Hhandler. erewrite bind_ok by apply record_chunks.
    unfold ret. by rewrite <- app_assoc.
Qed.

End Download.

Lemma download_sink_witness :
  _download "out.txt" "sample.txt" None w_serving
  = (Ok tt,
     World (ftp_client w_serving) {[ "out.txt" := LFile sample_content ]}
           [FileOpen "out.txt" "wb"; Ftp (Retrbinary "RETR sample.txt");
            FileWrite "out.txt" sample_content; FileClose "out.txt"])
  ∧ (∀ handler,
       _download "out.txt" "sample.txt" (Some handler) w_serving
       = (for_each [sample_content] handler ;;; ret tt)
           (World (ftp_client w_serving) ∅ [Ftp (Retrbinary "RETR sample.txt")]))
  ∧ _download "out.txt" "sample.txt" (Some recording_handler) w_serving
    = (Ok tt,
       World (ftp_client w_serving) ∅
             [Ftp (Retrbinary "RETR sample.txt"); HandlerCall sample_content]).
Proof.
  assert (ftp_retrbinary "RETR sample.txt" (ftp_client w_serving)
          = ([sample_content], Done tt, ftp_client w_serving)) as Hretr
    by (vm_compute; reflexivity).
  pose proof (download_sink "out.txt" "sample.txt" w_serving _ _ Hretr) as H.
  assert (open_wb_error (local w_serving) "out.txt" = None) as Hopen
    by (vm_compute; reflexivity).
  rewrite Hopen in H. exact H.
Defined.

(** ** Repeated uploads *)

Lemma loop_result_free (fuel : nat) (names : gset string) (file_name : string)
    (suffix : nat) (newname r : string) :
  unique_name_loop fuel names file_name suffix newname = Some r → r ∉ names.
Proof.
  revert suffix newname. induction fuel as [|fuel IH]; intros suffix newname; simpl.
  - destruct (decide (newname ∈ names)); [done|]. by intros [= <-].
  - destruct (decide (newname ∈ names)); [|by intros [= <-]].
    destruct (os_path.splitext file_name). apply IH.
Qed.

Section Uploads.
Context {conn : Type} `{!FTP conn}.

Lemma with_open_rb_inv {A} (p : string) (body : bytes → M conn A) (w w' : world conn) v :
  with_open_rb p body w = (Ok v, w') →
  ∃ data w2,
    local w !! p = Some (LFile data)
    ∧ body data (World (ftp_client w) (local w) (trace w ++ [FileOpen p "rb"])) = (Ok v, w2)
    ∧ w' = World (ftp_client w2) (local w2) (trace w2 ++ [FileClose p]).
Proof.
  unfold with_open_rb. intros H.
  apply bind_inv_ok in H as (data & w1 & Hopen & H).
  unfold open_rb in Hopen.
  destruct (local w !! p) as [[content|]|] eqn:Hfile; try done.
  injection Hopen as <- <-.
  destruct (body content _) as [[x|e|] w2] eqn:Hbody; try done.
  injection H as <- <-. by exists content, w2.
Qed.


End Uploads.


Section ThreeUploads.
Context {conn : Type} `{!FTP conn}.

(** The names the directory the session is positioned in holds, on a client
    where [nlst] reports them and a completed [STOR] adds the stored name. *)
Variable files_here : conn → gset string.
Hypothesis nlst_here : ∀ s l s',
  ftp_nlst "" s = (Done l, s') →
  list_to_set l = files_here s ∧ files_here s' = files_here s.
Hypothesis stor_here : ∀ n data s s',
  ftp_storbinary ("STOR " +:+ n) data s = (Done tt, s') →
  files_here s' = {[ n ]} ∪ files_here s.

Variables (fuel : nat) (local_directory file_name ftp_directory : string).
Variable rename_existing : bool.
Variables (w0 w1 w2 w3 : world conn) (n1 n2 n3 : string).

(** One directory: the second and the third upload come back to the
    directory the upload before them ended in, as it was left. *)
Hypothesis same_directory : ∀ w a,
  w = w1 ∨ w = w2 →
  (makedirs ftp_directory "/" ;;; cwd ftp_directory) w = (Ok tt, a) →
  files_here (ftp_client a) = files_here (ftp_client w).

(** Three uploads of the same local file, none of them disturbed by a
    failure. *)
Hypothesis first_upload :
  upload_file_body fuel local_directory file_name ftp_directory rename_existing w0
  = (Ok n1, w1).
Hypothesis second_upload :
  upload_file_body fuel local_directory file_name ftp_directory rename_existing w1
  = (Ok n2, w2).
Hypothesis third_upload :
  upload_file_body fuel local_directory file_name ftp_directory rename_existing w2
  = (Ok n3, w3).



End ThreeUploads.

(** The stub is such a client. *)

Lemma substring_all (s : string) : String.substring 0 (String.length s) s = s.
Proof. induction s as [|a s IH]; simpl; [done | by rewrite IH]. Qed.






(** * More of the module *)

(** ** The retry policy, seen by a caller *)

Section Retry.
Context {conn : Type} `{!FTP conn}.

(** A call that returns a value returns the value of one of its attempts. *)
Lemma retry_inv_ok {A} (fn : M conn A) (w w' : world conn) v :
  retry fn w = (Ok v, w') → ∃ w0, fn w0 = (Ok v, w').
Proof.
  rewrite retry_unfold.
  destruct (fn w) as [[v1|e1|] w1] eqn:H1; [intros [= <- <-]; by eauto| |done].
  destruct (ftplib_all_errors e1); [|done].
  destruct (fn (paused w1)) as [[v2|e2|] w2] eqn:H2; [intros [= <- <-]; by eauto| |done].
  destruct (ftplib_all_errors e2); [|done].
  destruct (fn (paused w2)) as [[v3|e3|] w3] eqn:H3; [intros [= <- <-]; by eauto| |done].
  by destruct (ftplib_all_errors e3).
Qed.

(** The same, with where that attempt started. *)
Lemma retry_inv_attempt {A} (fn : M conn A) (w w' : world conn) v :
  retry fn w = (Ok v, w') → ∃ w0, attempt_start fn w w0 ∧ fn w0 = (Ok v, w').
Proof.
  rewrite retry_unfold. unfold attempt_start.
  destruct (fn w) as [[v1|e1|] w1] eqn:H1; [intros [= <- <-]; by eauto| |done].
  destruct (ftplib_all_errors e1) eqn:T1; [|done].
  destruct (fn (paused w1)) as [[v2|e2|] w2] eqn:H2; [| |done].
  { intros [= <- <-]. exists (paused w1). split; [|done].
    right. exists e1, w1. split_and!; [done..|]. by left. }
  destruct (ftplib_all_errors e2) eqn:T2; [|done].
  destruct (fn (paused w2)) as [[v3|e3|] w3] eqn:H3; [| |done].
  { intros [= <- <-]. exists (paused w2). split; [|done].
    right. exists e1, w1. split_and!; [done..|].
    right. exists e2, w2. by split_and!. }
  by destruct (ftplib_all_errors e3).
Qed.

(** What every attempt keeps, and the pause keeps, the call keeps. *)
Lemma retry_invariant {A} (P : world conn → Prop) (fn : M conn A) :
  (∀ w, P w → P (fn w).2) →
  (∀ w, P w → P (paused w)) →
  ∀ w, P w → P (retry fn w).2.
Proof.
  intros Hfn Hpause w Hw. rewrite retry_unfold.
  pose proof (Hfn w Hw) as H1.
  destruct (fn w) as [[v1|e1|] w1]; [done| |done].
  destruct (ftplib_all_errors e1); [|done]. simpl in H1.
  pose proof (Hfn _ (Hpause _ H1)) as H2.
  destruct (fn (paused w1)) as [[v2|e2|] w2]; [done| |done].
  destruct (ftplib_all_errors e2); [|done]. simpl in H2.
  pose proof (Hfn _ (Hpause _ H2)) as H3.
  destruct (fn (paused w2)) as [[v3|e3|] w3]; [done| |done].
  by destruct (ftplib_all_errors e3).
Qed.

(** X1. No exception of [ftplib.all_errors] ever leaves a function under the
    retry policy: what a caller can catch is [RetryError], or an exception
    the policy does not select. *)
Theorem retry_never_raises_ftp_error {A : Type} (fn : M conn A)
    (w w' : world conn) (e : exn) :
  retry fn w = (Raise e, w') → ftplib_all_errors e = false.
Proof.
  rewrite retry_unfold.
  destruct (fn w) as [[v1|e1|] w1]; [done| |done].
  destruct (ftplib_all_errors e1) eqn:T1; [|by intros [= <- _]].
  destruct (fn (paused w1)) as [[v2|e2|] w2]; [done| |done].
  destruct (ftplib_all_errors e2) eqn:T2; [|by intros [= <- _]].
  destruct (fn (paused w2)) as [[v3|e3|] w3]; [done| |done].
  destruct (ftplib_all_errors e3) eqn:T3; by intros [= <- _].
Qed.

End Retry.

Lemma retry_never_raises_ftp_error_witness :
  ftplib_all_errors (RetryError (OSError "Name or service not known")) = false.
Proof.
  apply (retry_never_raises_ftp_error
           (connect "invalidhost" 21 (-999) ;;; login "" "" ;;; set_pasv true)
           w_stub
           (World Stub.initial disk
                  [Ftp (Connect "invalidhost" 21 (-999)); Sleep 5;
                   Ftp (Connect "invalidhost" 21 (-999)); Sleep 5;
                   Ftp (Connect "invalidhost" 21 (-999))])).
  vm_compute. reflexivity.
Defined.

(** ** Connecting *)

(** X2. Whenever [connect_and_login] returns, after however many attempts,
    its last three calls were a connect and a login that both succeeded and
    the switch to passive mode, and the session is in the state the switch
    left. *)
Theorem connect_and_login_returns_logged_in {conn : Type} `{!FTP conn}
    (host : string) (port : Z) (user passwd : string) (timeout : Z)
    (w w' : world conn) :
  connect_and_login host port user passwd timeout w = (Ok tt, w') →
  ∃ tr s0 s1 s2,
    ftp_connect host port timeout s0 = (Done tt, s1)
    ∧ ftp_login user passwd s1 = (Done tt, s2)
    ∧ ftp_client w' = ftp_set_pasv true s2
    ∧ trace w' = tr ++ [Ftp (Connect host port timeout); Ftp (Login user passwd);
                        Ftp (SetPasv true)].
Proof.
  unfold connect_and_login. intros H.
  apply retry_inv_ok in H as (w0 & H).
  apply bind_inv_ok in H as ([] & w1 & Hconnect & H).
  apply bind_inv_ok in H as ([] & w2 & Hlogin & Hpasv).
  apply call_inv_ok in Hconnect as (Hconnect & _ & T1).
  apply call_inv_ok in Hlogin as (Hlogin & _ & T2).
  unfold set_pasv in Hpasv. apply call_inv_ok in Hpasv as (Hpasv & _ & T3).
  injection Hpasv as Hpasv.
  exists (trace w0), (ftp_client w0), (ftp_client w1), (ftp_client w2).
  split_and!; [done..|]. by rewrite T3, T2, T1, <- !app_assoc.
Qed.

Lemma connect_and_login_returns_logged_in_witness :
  ∃ tr (s0 s1 s2 : Stub.t),
    ftp_connect "127.0.0.1" 21 (-999) s0 = (Done tt, s1)
    ∧ ftp_login "" "" s1 = (Done tt, s2)
    ∧ ftp_client (World (Stub.Make "/" [] [] true true) disk
                        [Ftp (Connect "127.0.0.1" 21 (-999)); Ftp (Login "" "");
                         Ftp (SetPasv true)])
      = ftp_set_pasv true s2
    ∧ trace (World (Stub.Make "/" [] [] true true) disk
                   [Ftp (Connect "127.0.0.1" 21 (-999)); Ftp (Login "" "");
                    Ftp (SetPasv true)])
      = tr ++ [Ftp (Connect "127.0.0.1" 21 (-999)); Ftp (Login "" "");
               Ftp (SetPasv true)].
Proof.
  apply (connect_and_login_returns_logged_in "127.0.0.1" 21 "" "" (-999) w_stub).
  vm_compute. reflexivity.
Defined.

(** ** The local file system is left alone *)

Section KeepsLocal.
Context {conn : Type} `{!FTP conn}.

Lemma keeps_local_ret {A} (v : A) : keeps_local (ret v : M conn A).
Proof. by intros w. Qed.

Lemma keeps_local_raise {A} (e : exn) : keeps_local (raise e : M conn A).
Proof. by intros w. Qed.

Lemma keeps_local_out_of_fuel {A} : keeps_local (out_of_fuel : M conn A).
Proof. by intros w. Qed.

Lemma keeps_local_call {A} (c : ftp_call) (method : conn → reply A * conn) :
  keeps_local (call c method).
Proof. intros w. unfold call. by destruct (method (ftp_client w)). Qed.

Lemma keeps_local_bind {A B} (m : M conn A) (k : A → M conn B) :
  keeps_local m → (∀ x, keeps_local (k x)) → keeps_local (bind m k).
Proof.
  intros Hm Hk w. unfold bind. specialize (Hm w).
  destruct (m w) as [[x|e|] w1]; simpl in *; [|done..].
  by rewrite Hk.
Qed.

Lemma keeps_local_for_each {X} (l : list X) (body : X → M conn unit) :
  (∀ x, keeps_local (body x)) → keeps_local (for_each l body).
Proof.
  intros Hbody. induction l as [|x l IH]; simpl.
  - apply keeps_local_ret.
  - by apply keeps_local_bind.
Qed.

Lemma keeps_local_with_open_rb {A} (p : string) (body : bytes → M conn A) :
  (∀ file, keeps_local (body file)) → keeps_local (with_open_rb p body).
Proof.
  intros Hbody. apply keeps_local_bind.
  - intros w. unfold open_rb. by destruct (local w !! p) as [[|]|].
  - intros file w. specialize (Hbody file w).
    by destruct (body file w) as [[x|e|] w1].
Qed.

Lemma keeps_local_retry {A} (fn : M conn A) : keeps_local fn → keeps_local (retry fn).
Proof.
  intros Hfn w.
  apply (retry_invariant (λ w', local w' = local w) fn); [|done..].
  intros w' Hw'. by rewrite Hfn.
Qed.

Lemma keeps_local_makedirs (path base_directory : string) :
  keeps_local (makedirs path base_directory).
Proof.
  unfold makedirs, cwd, mkd.
  repeat first [ apply keeps_local_bind | apply keeps_local_for_each
               | apply keeps_local_call | intros ? ].
Qed.

Lemma keeps_local_get_unique (fuel : nat) (file_name directory : string) :
  keeps_local (get_unique_file_name_if_exists fuel file_name directory).
Proof.
  unfold get_unique_file_name_if_exists, list_files, nlst.
  apply keeps_local_bind; [apply keeps_local_call|]. intros names.
  destruct (unique_name_loop _ _ _ _ _);
    [apply keeps_local_ret | apply keeps_local_out_of_fuel].
Qed.

Lemma keeps_local_upload_file_body (fuel : nat)
    (local_directory file_name ftp_directory : string) (rename_existing : bool) :
  keeps_local (upload_file_body fuel local_directory file_name ftp_directory
                                rename_existing).
Proof.
  unfold upload_file_body.
  apply keeps_local_bind; [by intros w|]. intros e.
  apply keeps_local_bind; [by intros w|]. intros f.
  destruct (negb e || negb f); [apply keeps_local_raise|].
  apply keeps_local_bind; [apply keeps_local_makedirs|]. intros _.
  apply keeps_local_bind; [apply keeps_local_call|]. intros _.
  apply keeps_local_bind.
  { destruct (negb rename_existing);
      [apply keeps_local_get_unique | apply keeps_local_ret]. }
  intros out_name. apply keeps_local_bind; [|intros; apply keeps_local_ret].
  apply keeps_local_with_open_rb. intros file. apply keeps_local_call.
Qed.

(** X3. Whatever happens, and however many attempts are made, [upload_file],
    [move_file], [makedirs] and [connect_and_login] leave the local file
    system as they found it. *)
Theorem remote_operations_keep_local (fuel : nat) (a b c : string) (flag : bool)
    (port timeout : Z) :
  keeps_local (upload_file fuel a b c flag)
  ∧ keeps_local (move_file fuel a b c flag)
  ∧ keeps_local (makedirs a b)
  ∧ keeps_local (connect_and_login a port b c timeout).
Proof.
  split_and!.
  - apply keeps_local_retry, keeps_local_upload_file_body.
  - unfold move_file, rename. apply keeps_local_bind.
    { destruct (negb flag); [apply keeps_local_get_unique | apply keeps_local_ret]. }
    intros newname. apply keeps_local_bind; [apply keeps_local_call|].
    intros; apply keeps_local_ret.
  - apply keeps_local_makedirs.
  - unfold connect_and_login, connect, login, set_pasv. apply keeps_local_retry.
    repeat first [ apply keeps_local_bind | apply keeps_local_call | intros ? ].
Qed.

End KeepsLocal.

(** ** One upload *)

Section Upload.
Context {conn : Type} `{!FTP conn}.
Variables (fuel : nat) (local_directory file_name ftp_directory : string).
Variable rename_existing : bool.

Lemma upload_file_body_ok (w w' : world conn) (out_name : string) :
  upload_file_body fuel local_directory file_name ftp_directory rename_existing w
  = (Ok out_name, w') →
  ∃ data,
    local w !! os_path.join local_directory [file_name] = Some (LFile data)
    ∧ (if rename_existing then out_name = file_name
       else ∃ l s0 s1, ftp_nlst "" s0 = (Done l, s1)
                       ∧ unique_name_loop fuel (list_to_set l) file_name 1 file_name
                         = Some out_name)
    ∧ trace w'
      = trace w ++ makedirs_calls ftp_directory "/" ++ [Ftp (Cwd ftp_directory)]
        ++ (if rename_existing then [] else [Ftp (Nlst "")])
        ++ [FileOpen (os_path.join local_directory [file_name]) "rb";
            Ftp (Storbinary ("STOR " +:+ out_name) data);
            FileClose (os_path.join local_directory [file_name])].
Proof.
  unfold upload_file_body. intros H.
  apply bind_inv_ok in H as (e & wa & He & H).
  unfold os_path_exists in He. injection He as <- <-.
  apply bind_inv_ok in H as (f & wb & Hf & H).
  unfold os_path_isfile in Hf. injection Hf as <- <-.
  destruct (negb _ || negb _); [done|].
  apply bind_inv_ok in H as ([] & w1 & Hmk & H).
  apply bind_inv_ok in H as ([] & a & Hcwd & H).
  apply bind_inv_ok in H as (out & b & Hname & H).
  apply bind_inv_ok in H as ([] & c & Hstor & H).
  unfold ret in H. injection H as <- <-.
  apply with_open_rb_inv in Hstor as (data & w2 & Hfile & Hstor & ->).
  apply call_inv_ok in Hstor as (_ & _ & T4).
  cbn [ftp_client local trace] in T4 |- *.
  assert (trace w1 = trace w ++ makedirs_calls ftp_directory "/"
          ∧ local w1 = local w) as [T1 L1].
  { destruct (makedirs_trace ftp_directory "/" w) as (done & Htrace & _ & Hok).
    pose proof (keeps_local_makedirs ftp_directory "/" w) as Hlocal.
    rewrite Hmk in Htrace, Hlocal. simpl in Htrace, Hlocal.
    by rewrite Htrace, (Hok w1 Hmk). }
  apply call_inv_ok in Hcwd as (_ & L2 & T2).
  assert ((if rename_existing then out = file_name
           else ∃ l s0 s1, ftp_nlst "" s0 = (Done l, s1)
                           ∧ unique_name_loop fuel (list_to_set l) file_name 1 file_name
                             = Some out)
          ∧ local b = local a
          ∧ trace b = trace a ++ (if rename_existing then [] else [Ftp (Nlst "")]))
    as (Hout & L3 & T3).
  { destruct rename_existing; simpl in Hname.
    - unfold ret in Hname. injection Hname as <- <-. by rewrite app_nil_r.
    - unfold get_unique_file_name_if_exists, list_files, nlst in Hname.
      apply bind_inv_ok in Hname as (l & b' & Hnlst & Hname).
      apply call_inv_ok in Hnlst as (Hnlst & Hlocal & Htr).
      destruct (unique_name_loop _ _ _ _ _) as [r|] eqn:Hloop; [|done].
      unfold ret in Hname. injection Hname as <- <-. split; [by eauto|done]. }
  exists data. split_and!; [|done|].
  - by rewrite <- L1, <- L2, <- L3.
  - rewrite T4, T3, T2, T1. by rewrite <- !app_assoc.
Qed.

(** X4. An attempt of [upload_file] that returns has made these calls and no
    others: the calls of [makedirs] from the root ["/"], the change into the
    target directory, the listing unless [rename_existing], and the store of
    the local file's content under the name it returns, the local file being
    opened before and closed after. *)
Theorem upload_file_attempt_calls (w w' : world conn) (out_name : string) :
  upload_file_body fuel local_directory file_name ftp_directory rename_existing w
  = (Ok out_name, w') →
  ∃ data,
    local w !! os_path.join local_directory [file_name] = Some (LFile data)
    ∧ trace w'
      = trace w ++ makedirs_calls ftp_directory "/" ++ [Ftp (Cwd ftp_directory)]
        ++ (if rename_existing then [] else [Ftp (Nlst "")])
        ++ [FileOpen (os_path.join local_directory [file_name]) "rb";
            Ftp (Storbinary ("STOR " +:+ out_name) data);
            FileClose (os_path.join local_directory [file_name])].
Proof.
  intros H. destruct (upload_file_body_ok _ _ _ H) as (data & Hfile & _ & Htrace).
  by exists data.
Qed.

(** What an attempt that returns has done, state by state. *)
Lemma upload_file_body_stored (w w' : world conn) (out_name : string) :
  upload_file_body fuel local_directory file_name ftp_directory rename_existing w
  = (Ok out_name, w') →
  ∃ a data,
    (makedirs ftp_directory "/" ;;; cwd ftp_directory) w = (Ok tt, a)
    ∧ local w !! os_path.join local_directory [file_name] = Some (LFile data)
    ∧ if rename_existing then
        out_name = file_name
        ∧ ftp_storbinary ("STOR " +:+ out_name) data (ftp_client a)
          = (Done tt, ftp_client w')
        ∧ trace w'
          = trace a ++ [FileOpen (os_path.join local_directory [file_name]) "rb";
                        Ftp (Storbinary ("STOR " +:+ out_name) data);
                        FileClose (os_path.join local_directory [file_name])]
      else
        ∃ l s,
          ftp_nlst "" (ftp_client a) = (Done l, s)
          ∧ unique_name_loop fuel (list_to_set l) file_name 1 file_name = Some out_name
          ∧ ftp_storbinary ("STOR " +:+ out_name) data s = (Done tt, ftp_client w')
          ∧ trace w'
            = trace a ++ [Ftp (Nlst "");
                          FileOpen (os_path.join local_directory [file_name]) "rb";
                          Ftp (Storbinary ("STOR " +:+ out_name) data);
                          FileClose (os_path.join local_directory [file_name])].
Proof.
  unfold upload_file_body. intros H.
  apply bind_inv_ok in H as (e & wa & He & H).
  unfold os_path_exists in He. injection He as <- <-.
  apply bind_inv_ok in H as (f & wb & Hf & H).
  unfold os_path_isfile in Hf. injection Hf as <- <-.
  destruct (negb _ || negb _); [done|].
  apply bind_inv_ok in H as ([] & w1 & Hmk & H).
  apply bind_inv_ok in H as ([] & a & Hcwd & H).
  apply bind_inv_ok in H as (out & b & Hname & H).
  apply bind_inv_ok in H as ([] & c & Hstor & H).
  unfold ret in H. injection H as <- <-.
  apply with_open_rb_inv in Hstor as (data & w2 & Hfile & Hstor & ->).
  apply call_inv_ok in Hstor as (Hstor & _ & Htrace).
  cbn [ftp_client local trace] in Hstor, Htrace |- *.
  assert (local a = local w) as La.
  { pose proof (keeps_local_makedirs ftp_directory "/" w) as L1.
    pose proof (keeps_local_call (Cwd ftp_directory) (ftp_cwd ftp_directory) w1) as L2.
    fold (cwd ftp_directory) in L2. rewrite Hmk in L1. rewrite Hcwd in L2.
    simpl in *. by rewrite L2, L1. }
  exists a, data. split; [by erewrite bind_ok by done|].
  destruct rename_existing; simpl in Hname.
  - unfold ret in Hname. injection Hname as <- <-.
    split_and!; [by rewrite <- La|done|done|].
    rewrite Htrace. by rewrite <- !app_assoc.
  - unfold get_unique_file_name_if_exists, list_files, nlst in Hname.
    apply bind_inv_ok in Hname as (l & b' & Hnlst & Hname).
    apply call_inv_ok in Hnlst as (Hnlst & Lb & Tb).
    destruct (unique_name_loop _ _ _ _ _) as [r|] eqn:Hloop; [|done].
    unfold ret in Hname. injection Hname as <- <-.
    split; [by rewrite <- La, <- Lb|].
    exists l, (ftp_client b'). split_and!; [done..|].
    rewrite Htrace, Tb. by rewrite <- !app_assoc.
Qed.

(** X5. Whenever [upload_file] returns a name, after however many attempts,
    the attempt that returned went to the target directory and stored the
    content of the local file under that name, which was its last call.
    With [rename_existing] the name is the file name.  Without it, the
    attempt listed the directory it had just entered, the name is none of
    those the listing returned (the file name itself when the listing does
    not have it), and the store followed the listing.  The attempt is the
    first, or follows attempts that ended in transport errors. *)
Theorem upload_file_returns_stored_name (w w' : world conn) (out_name : string) :
  upload_file fuel local_directory file_name ftp_directory rename_existing w
  = (Ok out_name, w') →
  ∃ w0 a data,
    attempt_start (upload_file_body fuel local_directory file_name ftp_directory
                                    rename_existing) w w0
    ∧ (makedirs ftp_directory "/" ;;; cwd ftp_directory) w0 = (Ok tt, a)
    ∧ local w !! os_path.join local_directory [file_name] = Some (LFile data)
    ∧ if rename_existing then
        out_name = file_name
        ∧ ftp_storbinary ("STOR " +:+ out_name) data (ftp_client a)
          = (Done tt, ftp_client w')
        ∧ trace w'
          = trace a ++ [FileOpen (os_path.join local_directory [file_name]) "rb";
                        Ftp (Storbinary ("STOR " +:+ out_name) data);
                        FileClose (os_path.join local_directory [file_name])]
      else
        ∃ l s,
          ftp_nlst "" (ftp_client a) = (Done l, s)
          ∧ (out_name ∉ l)
          ∧ (file_name ∉ l → out_name = file_name)
          ∧ ftp_storbinary ("STOR " +:+ out_name) data s = (Done tt, ftp_client w')
          ∧ trace w'
            = trace a ++ [Ftp (Nlst "");
                          FileOpen (os_path.join local_directory [file_name]) "rb";
                          Ftp (Storbinary ("STOR " +:+ out_name) data);
                          FileClose (os_path.join local_directory [file_name])].
Proof.
  intros H.
  pose proof (keeps_local_retry _ (keeps_local_upload_file_body
                fuel local_directory file_name ftp_directory rename_existing) w) as L.
  fold (upload_file fuel local_directory file_name ftp_directory rename_existing) in L.
  rewrite H in L. simpl in L.
  apply retry_inv_attempt in H as (w0 & Hstart & H).
  pose proof (keeps_local_upload_file_body
                fuel local_directory file_name ftp_directory rename_existing w0) as L0.
  rewrite H in L0. simpl in L0.
  destruct (upload_file_body_stored _ _ _ H) as (a & data & Hnav & Hfile & Hstored).
  exists w0, a, data. split_and!; [done..|by rewrite <- L, L0|].
  destruct rename_existing; [done|].
  destruct Hstored as (l & s & Hnlst & Hloop & Hstor & Htrace).
  exists l, s. split_and!; [done| | |done..].
  - pose proof (loop_result_free _ _ _ _ _ _ Hloop) as Hfree.
    by rewrite elem_of_list_to_set in Hfree.
  - intros Hout.
    rewrite (loop_free (list_to_set l) file_name fuel 1 file_name) in Hloop.
    + by injection Hloop.
    + by rewrite elem_of_list_to_set.
Qed.

End Upload.

Lemma upload_file_attempt_calls_witness :
  ∃ data,
    local w_stub !! os_path.join "test/data" ["sample.txt"] = Some (LFile data)
    ∧ trace (after_upload false w_stub)
      = trace w_stub ++ makedirs_calls "test/data/" "/" ++ [Ftp (Cwd "test/data/")]
        ++ [Ftp (Nlst "")]
        ++ [FileOpen (os_path.join "test/data" ["sample.txt"]) "rb";
            Ftp (Storbinary ("STOR " +:+ "sample.txt") data);
            FileClose (os_path.join "test/data" ["sample.txt"])].
Proof.
  apply (upload_file_attempt_calls 3 "test/data" "sample.txt" "test/data/" false
                                   w_stub (after_upload false w_stub) "sample.txt").
  vm_compute. reflexivity.
Defined.

Lemma upload_file_returns_stored_name_witness :
  ∃ (w0 a : world Flaky.t) data,
    attempt_start (upload_file_body 3 "test/data" "sample.txt" "test/data/" false)
                  w_flaky w0
    ∧ (makedirs "test/data/" "/" ;;; cwd "test/data/") w0 = (Ok tt, a)
    ∧ local w_flaky !! os_path.join "test/data" ["sample.txt"] = Some (LFile data)
    ∧ ∃ l s,
        ftp_nlst "" (ftp_client a) = (Done l, s)
        ∧ ("sample-1.txt" ∉ l)
        ∧ ("sample.txt" ∉ l → "sample-1.txt" = "sample.txt")
        ∧ ftp_storbinary ("STOR " +:+ "sample-1.txt") data s
          = (Done tt,
             ftp_client (upload_file 3 "test/data" "sample.txt" "test/data/" false
                                     w_flaky).2)
        ∧ trace (upload_file 3 "test/data" "sample.txt" "test/data/" false w_flaky).2
          = trace a ++ [Ftp (Nlst "");
                        FileOpen (os_path.join "test/data" ["sample.txt"]) "rb";
                        Ftp (Storbinary ("STOR " +:+ "sample-1.txt") data);
                        FileClose (os_path.join "test/data" ["sample.txt"])].
Proof.
  apply (upload_file_returns_stored_name 3 "test/data" "sample.txt" "test/data/" false
           w_flaky
           (upload_file 3 "test/data" "sample.txt" "test/data/" false w_flaky).2
           "sample-1.txt").
  vm_compute. reflexivity.
Defined.

(** ** A store that fails *)

Section StoreFails.
Context {conn : Type} `{!FTP conn}.

(** X6. When the store itself fails, the attempt of [upload_file] still
    closes the local file it opened, and raises the error of the store: the
    calls up to there stay made, and no name is returned. *)
Theorem upload_file_store_failure_closes_file (fuel : nat)
    (local_directory file_name ftp_directory : string) (rename_existing : bool)
    (w a b : world conn) (out_name : string) (data : bytes) (e : exn) (s : conn) :
  local w !! os_path.join local_directory [file_name] = Some (LFile data) →
  (makedirs ftp_directory "/" ;;; cwd ftp_directory) w = (Ok tt, a) →
  (if negb rename_existing
   then get_unique_file_name_if_exists fuel file_name ""
   else ret file_name) a = (Ok out_name, b) →
  ftp_storbinary ("STOR " +:+ out_name) data (ftp_client b) = (Failed e, s) →
  upload_file_body fuel local_directory file_name ftp_directory rename_existing w
  = (Raise e,
     World s (local w)
           (trace b ++ [FileOpen (os_path.join local_directory [file_name]) "rb";
                        Ftp (Storbinary ("STOR " +:+ out_name) data);
                        FileClose (os_path.join local_directory [file_name])])).
Proof.
  intros Hfile Hnav Hname Hstor.
  apply bind_inv_ok in Hnav as ([] & w1 & Hmk & Hcwd).
  assert (local b = local w) as Hlocal.
  { pose proof (keeps_local_makedirs ftp_directory "/" w) as L1.
    pose proof (keeps_local_call (Cwd ftp_directory) (ftp_cwd ftp_directory) w1) as L2.
    assert (keeps_local (if negb rename_existing
                         then get_unique_file_name_if_exists fuel file_name ""
                         else ret file_name)) as L3.
    { destruct (negb rename_existing);
        [apply keeps_local_get_unique | apply keeps_local_ret]. }
    specialize (L3 a). fold (cwd ftp_directory) in L2.
    rewrite Hmk in L1. rewrite Hcwd in L2. rewrite Hname in L3. simpl in *.
    by rewrite L3, L2, L1. }
  unfold upload_file_body.
  remember (os_path.join local_directory [file_name]) as p eqn:Hp.
  erewrite bind_ok by reflexivity. erewrite bind_ok by reflexivity.
  rewrite Hfile. simpl.
  erewrite bind_ok by done. erewrite bind_ok by done. erewrite bind_ok by done.
  erewrite bind_raise; [reflexivity|].
  unfold with_open_rb. erewrite bind_ok; last first.
  { unfold open_rb. rewrite Hlocal, Hfile. reflexivity. }
  unfold storbinary at 1, call at 1. cbn [ftp_client local trace].
  rewrite Hstor. simpl. by rewrite <- !app_assoc.
Qed.

End StoreFails.

Lemma upload_file_store_failure_closes_file_witness :
  upload_file_body 3 "test/data" "sample.txt" "test/data/" false w_flaky
  = (Raise Flaky.dropped,
     World (Flaky.Make 0 (Stub.Make "test/data/" ["test"; "data"]
                                    [("sample.txt", sample_content)] true true))
           disk
           [Ftp (Cwd "/"); Ftp (Mkd "test"); Ftp (Cwd "test"); Ftp (Mkd "data");
            Ftp (Cwd "data"); Ftp (Cwd "/"); Ftp (Cwd "test/data/"); Ftp (Nlst "");
            FileOpen "test/data/sample.txt" "rb";
            Ftp (Storbinary "STOR sample-1.txt" sample_bytes);
            FileClose "test/data/sample.txt"]).
Proof.
  assert (local w_flaky !! os_path.join "test/data" ["sample.txt"]
          = Some (LFile sample_bytes)) as Hfile by (vm_compute; reflexivity).
  refine (upload_file_store_failure_closes_file 3 "test/data" "sample.txt" "test/data/"
            false w_flaky
            (World (Flaky.Make 1 (Stub.Make "test/data/" ["test"; "data"]
                                            [("sample.txt", sample_content)] true true))
                   disk
                   [Ftp (Cwd "/"); Ftp (Mkd "test"); Ftp (Cwd "test"); Ftp (Mkd "data");
                    Ftp (Cwd "data"); Ftp (Cwd "/"); Ftp (Cwd "test/data/")])
            (World (Flaky.Make 1 (Stub.Make "test/data/" ["test"; "data"]
                                            [("sample.txt", sample_content)] true true))
                   disk
                   [Ftp (Cwd "/"); Ftp (Mkd "test"); Ftp (Cwd "test"); Ftp (Mkd "data");
                    Ftp (Cwd "data"); Ftp (Cwd "/"); Ftp (Cwd "test/data/");
                    Ftp (Nlst "")])
            "sample-1.txt" sample_bytes Flaky.dropped _ Hfile _ _ _);
    vm_compute; reflexivity.
Defined.

Lemma download_failed_leaves_file_open_witness :
  ∃ w' content,
    _download "out.txt" "sample.txt" None w_flaky = (Raise Flaky.dropped, w')
    ∧ ftp_client w'
      = Flaky.Make 0 (Stub.Make "/" [] [("sample.txt", sample_content)] true true)
    ∧ trace w'
      = trace w_flaky
        ++ [FileOpen "out.txt" "wb"; Ftp (Retrbinary ("RETR " +:+ "sample.txt"))]
        ++ (FileWrite "out.txt" <$> [take 6 sample_content])
    ∧ local w' !! "out.txt" = Some (LFile content)
    ∧ content `prefix_of` concat [take 6 sample_content]
    ∧ ∀ p, p ≠ "out.txt" → local w' !! p = local w_flaky !! p.
Proof.
  refine (download_failed_leaves_file_open "out.txt" "sample.txt" w_flaky
            [take 6 sample_content] Flaky.dropped
            (Flaky.Make 0 (Stub.Make "/" [] [("sample.txt", sample_content)] true true))
            _ _);
    vm_compute; reflexivity.
Defined.

(** ** Downloads that are tried again *)

Section DownloadAgain.
Context {conn : Type} `{!FTP conn}.

Lemma download_to_recorder (local_file_path ftp_file_path : string) (w : world conn)
    (chunks : list bytes) (r : reply unit) (s : conn) :
  ftp_retrbinary ("RETR " +:+ ftp_file_path) (ftp_client w) = (chunks, r, s) →
  _download local_file_path ftp_file_path (Some recording_handler) w
  = (of_reply r,
     World s (local w)
           (trace w ++ [Ftp (Retrbinary ("RETR " +:+ ftp_file_path))]
            ++ (HandlerCall <$> chunks))).
Proof.
  intros Hretr. unfold _download.
  erewrite bind_ok by reflexivity. simpl.
  unfold bind at 1. erewrite retrbinary_unfold by done.
  erewrite bind_ok by apply record_chunks.
  rewrite <- app_assoc. by destruct r as [[]|e].
Qed.

(** X8. A download to a file that is tried again starts over: after a first
    attempt cut by a transport error and a pause of 5, the second attempt
    opens the file anew and writes the chunks of the second transfer to it
    from the start, and closes it.  The file object of the first attempt is
    never closed: two opens, one close.  The local file is there, and no
    other local file is touched. *)
Theorem download_file_retry_reopens (local_file_path ftp_file_path : string)
    (w : world conn) (chunks1 chunks2 : list bytes) (e1 : exn) (s1 s2 : conn) :
  ftp_retrbinary ("RETR " +:+ ftp_file_path) (ftp_client w) = (chunks1, Failed e1, s1) →
  ftplib_all_errors e1 = true →
  ftp_retrbinary ("RETR " +:+ ftp_file_path) s1 = (chunks2, Done tt, s2) →
  open_wb_error (local w) local_file_path = None →
  ∃ w',
    download_file local_file_path ftp_file_path None w = (Ok tt, w')
    ∧ ftp_client w' = s2
    ∧ trace w'
      = trace w
        ++ [FileOpen local_file_path "wb"; Ftp (Retrbinary ("RETR " +:+ ftp_file_path))]
        ++ (FileWrite local_file_path <$> chunks1)
        ++ [Sleep 5;
            FileOpen local_file_path "wb"; Ftp (Retrbinary ("RETR " +:+ ftp_file_path))]
        ++ (FileWrite local_file_path <$> chunks2)
        ++ [FileClose local_file_path]
    ∧ regular_file (local w') local_file_path
    ∧ ∀ p, p ≠ local_file_path → local w' !! p = local w !! p.
Proof.
  intros H1 T1 H2 Hopen. unfold download_file. rewrite retry_unfold.
  rewrite (download_to_file _ _ _ _ _ _ H1 Hopen). cbn [of_reply]. rewrite T1.
  erewrite (download_to_file _ _ (paused _)); [|exact H2|]; last first.
  { cbn [paused local]. by apply open_wb_error_again. }
  eexists. split; [reflexivity|]. cbn [paused ftp_client local trace].
  split_and!.
  - done.
  - rewrite app_nil_r. by rewrite <- !app_assoc.
  - eexists. apply lookup_insert_eq.
  - intros p Hp. by rewrite !lookup_insert_ne.
Qed.

(** X9. A download to a handler that is tried again hands the handler the
    chunks of the attempt that was cut and then, from the start, the chunks
    of the attempt that completes: the handler sees the beginning of the file
    twice. *)
Theorem download_file_retry_repeats_chunks (local_file_path ftp_file_path : string)
    (w : world conn) (chunks1 chunks2 : list bytes) (e1 : exn) (s1 s2 : conn) :
  ftp_retrbinary ("RETR " +:+ ftp_file_path) (ftp_client w) = (chunks1, Failed e1, s1) →
  ftplib_all_errors e1 = true →
  ftp_retrbinary ("RETR " +:+ ftp_file_path) s1 = (chunks2, Done tt, s2) →
  download_file local_file_path ftp_file_path (Some recording_handler) w
  = (Ok tt,
     World s2 (local w)
           (trace w
            ++ [Ftp (Retrbinary ("RETR " +:+ ftp_file_path))]
            ++ (HandlerCall <$> chunks1)
            ++ [Sleep 5; Ftp (Retrbinary ("RETR " +:+ ftp_file_path))]
            ++ (HandlerCall <$> chunks2))).
Proof.
  intros H1 T1 H2. unfold download_file. rewrite retry_unfold.
  rewrite (download_to_recorder _ _ _ _ _ _ H1). simpl. rewrite T1.
  erewrite (download_to_recorder _ _ (paused _)); [|exact H2].
  simpl. by rewrite <- !app_assoc.
Qed.

End DownloadAgain.

Lemma download_file_retry_reopens_witness :
  ∃ w',
    download_file "out.txt" "sample.txt" None w_flaky = (Ok tt, w')
    ∧ ftp_client w'
      = Flaky.Make 0 (Stub.Make "/" [] [("sample.txt", sample_content)] true true)
    ∧ trace w'
      = trace w_flaky
        ++ [FileOpen "out.txt" "wb"; Ftp (Retrbinary ("RETR " +:+ "sample.txt"))]
        ++ (FileWrite "out.txt" <$> [take 6 sample_content])
        ++ [Sleep 5;
            FileOpen "out.txt" "wb"; Ftp (Retrbinary ("RETR " +:+ "sample.txt"))]
        ++ (FileWrite "out.txt" <$> [sample_content])
        ++ [FileClose "out.txt"]
    ∧ regular_file (local w') "out.txt"
    ∧ ∀ p, p ≠ "out.txt" → local w' !! p = local w_flaky !! p.
Proof.
  refine (download_file_retry_reopens "out.txt" "sample.txt" w_flaky
            [take 6 sample_content] [sample_content] Flaky.dropped
            (Flaky.Make 0 (Stub.Make "/" [] [("sample.txt", sample_content)] true true))
            (Flaky.Make 0 (Stub.Make "/" [] [("sample.txt", sample_content)] true true))
            _ _ _ _);
    vm_compute; reflexivity.
Defined.

Lemma download_file_retry_repeats_chunks_witness :
  download_file "out.txt" "sample.txt" (Some recording_handler) w_flaky
  = (Ok tt,
     World (Flaky.Make 0 (Stub.Make "/" [] [("sample.txt", sample_content)] true true))
           disk
           [Ftp (Retrbinary "RETR sample.txt"); HandlerCall (take 6 sample_content);
            Sleep 5;
            Ftp (Retrbinary "RETR sample.txt"); HandlerCall sample_content]).
Proof.
  refine (download_file_retry_repeats_chunks "out.txt" "sample.txt" w_flaky
            [take 6 sample_content] [sample_content] Flaky.dropped
            (Flaky.Make 0 (Stub.Make "/" [] [("sample.txt", sample_content)] true true))
            _ _ _ _);
    vm_compute; reflexivity.
Defined.

(** ** Downloading a directory *)

Section DownloadDirectory.
Context {conn : Type} `{!FTP conn}.

Lemma ftp_calls_writes (p : string) (chunks : list bytes) :
  ftp_calls (FileWrite p <$> chunks) = [] ∧ files_opened (FileWrite p <$> chunks) = [].
Proof. induction chunks as [|c chunks [IH1 IH2]]; [done|]. by simpl. Qed.

Lemma download_to_file_inv (local_file_path ftp_file_path : string) (w w' : world conn) :
  _download local_file_path ftp_file_path None w = (Ok tt, w') →
  ∃ new, trace w' = trace w ++ new
         ∧ ftp_calls new = [Retrbinary ("RETR " +:+ ftp_file_path)]
         ∧ files_opened new = [local_file_path].
Proof.
  intros H.
  destruct (open_wb_error (local w) local_file_path) as [e|] eqn:Hopen.
  - unfold _download in H. erewrite bind_raise in H; [done|].
    erewrite bind_raise; [reflexivity|]. by apply open_wb_failed.
  - destruct (ftp_retrbinary ("RETR " +:+ ftp_file_path) (ftp_client w))
      as [[chunks r] s] eqn:Hretr.
    rewrite (download_to_file _ _ _ _ _ _ Hretr Hopen) in H.
    destruct r as [[]|e]; [|done]. injection H as <-.
    exists ([FileOpen local_file_path "wb"; Ftp (Retrbinary ("RETR " +:+ ftp_file_path))]
            ++ (FileWrite local_file_path <$> chunks) ++ [FileClose local_file_path]).
    split; [done|].
    destruct (ftp_calls_writes local_file_path chunks) as [Hc Ho].
    unfold ftp_calls, files_opened in *. rewrite !omap_app, Hc, Ho. by simpl.
Qed.

Lemma download_loop_inv (local_directory : string) (name_filter : option (string → bool))
    (files : list string) (w w' : world conn) :
  for_each files (λ file,
    if match name_filter with
       | Some name_filter => negb (name_filter file)
       | None => false
       end
    then ret tt
    else _download (os_path.join local_directory [file]) file None) w = (Ok tt, w') →
  ∃ new, trace w' = trace w ++ new
         ∧ ftp_calls new
           = (λ file, Retrbinary ("RETR " +:+ file)) <$> accepted name_filter files
         ∧ files_opened new
           = (λ file, os_path.join local_directory [file]) <$> accepted name_filter files.
Proof.
  revert w. induction files as [|file files IH]; intros w H.
  - injection H as <-. exists []. by rewrite app_nil_r.
  - cbn [for_each] in H. apply bind_inv_ok in H as ([] & w1 & Hfile & Hrest).
    destruct (IH _ Hrest) as (new & Htrace & Hcalls & Hopened).
    unfold accepted in *. cbn [List.filter].
    destruct name_filter as [name_filter|]; [destruct (name_filter file)|]; simpl in Hfile.
    + apply download_to_file_inv in Hfile as (new1 & Htrace1 & Hcalls1 & Hopened1).
      exists (new1 ++ new). rewrite Htrace, Htrace1, <- app_assoc. split; [done|].
      unfold ftp_calls, files_opened in *. rewrite !omap_app.
      by rewrite Hcalls, Hcalls1, Hopened, Hopened1.
    + injection Hfile as <-. by exists new.
    + apply download_to_file_inv in Hfile as (new1 & Htrace1 & Hcalls1 & Hopened1).
      exists (new1 ++ new). rewrite Htrace, Htrace1, <- app_assoc. split; [done|].
      unfold ftp_calls, files_opened in *. rewrite !omap_app.
      by rewrite Hcalls, Hcalls1, Hopened, Hopened1.
Qed.

(** X10. Whenever [download_directory] (the files going to the local
    directory) returns, the attempt that returned changed into the remote
    directory, listed it, and made one retrieval for each name of that
    listing the filter does not reject, in the order of the listing; and the
    local files it opened are those names joined to the local directory.  A
    rejected name is neither retrieved nor created locally.  The attempt is
    the first, or follows attempts that ended in transport errors. *)
Theorem download_directory_retrieves_accepted (local_directory ftp_directory : string)
    (name_filter : option (string → bool)) (w w' : world conn) :
  download_directory local_directory ftp_directory name_filter None w = (Ok tt, w') →
  ∃ w0 s1 files s2 new,
    attempt_start (download_directory_body local_directory ftp_directory name_filter None)
                  w w0
    ∧ ftp_cwd ftp_directory (ftp_client w0) = (Done tt, s1)
    ∧ ftp_nlst "" s1 = (Done files, s2)
    ∧ trace w' = trace w0 ++ new
    ∧ ftp_calls new
      = [Cwd ftp_directory; Nlst ""]
        ++ ((λ file, Retrbinary ("RETR " +:+ file)) <$> accepted name_filter files)
    ∧ files_opened new
      = (λ file, os_path.join local_directory [file]) <$> accepted name_filter files.
Proof.
  unfold download_directory. intros H.
  apply retry_inv_attempt in H as (w0 & Hstart & H). unfold download_directory_body in H.
  apply bind_inv_ok in H as (e & wa & He & H).
  unfold os_path_exists in He. injection He as <- <-.
  apply bind_inv_ok in H as ([] & w1 & Hmk & H).
  apply bind_inv_ok in H as ([] & w2 & Hcwd & H).
  apply bind_inv_ok in H as (files & w3 & Hnlst & Hloop).
  apply call_inv_ok in Hcwd as (Hcwd & _ & T2).
  unfold list_files, nlst in Hnlst. apply call_inv_ok in Hnlst as (Hnlst & _ & T3).
  apply download_loop_inv in Hloop as (new & T4 & Hcalls & Hopened).
  assert (∃ made, trace w1 = trace w0 ++ made ∧ ftp_calls made = []
                  ∧ files_opened made = [] ∧ ftp_client w1 = ftp_client w0)
    as (made & T1 & Hc1 & Ho1 & Hs1).
  { destruct (negb _).
    - unfold os_makedirs in Hmk. injection Hmk as <-. by eexists.
    - injection Hmk as <-. exists []. by rewrite app_nil_r. }
  rewrite Hs1 in Hcwd.
  exists w0, (ftp_client w2), files, (ftp_client w3),
    (made ++ [Ftp (Cwd ftp_directory)] ++ [Ftp (Nlst "")] ++ new).
  split_and!; [done..| | |].
  { rewrite T4, T3, T2, T1. by rewrite <- !app_assoc. }
  - unfold ftp_calls in *. rewrite !omap_app. rewrite Hc1, Hcalls. by simpl.
  - unfold files_opened in *. rewrite !omap_app. rewrite Ho1, Hopened. by simpl.
Qed.

End DownloadDirectory.

Lemma download_directory_retrieves_accepted_witness :
  ∃ (w0 : world Stub.t) s1 files s2 new,
    attempt_start (download_directory_body "out" "/data" (Some no_two) None) w_three w0
    ∧ ftp_cwd "/data" (ftp_client w0) = (Done tt, s1)
    ∧ ftp_nlst "" s1 = (Done files, s2)
    ∧ trace (download_directory "out" "/data" (Some no_two) None w_three).2
      = trace w0 ++ new
    ∧ ftp_calls new
      = [Cwd "/data"; Nlst ""]
        ++ ((λ file, Retrbinary ("RETR " +:+ file)) <$> accepted (Some no_two) files)
    ∧ files_opened new
      = (λ file, os_path.join "out" [file]) <$> accepted (Some no_two) files.
Proof.
  apply (download_directory_retrieves_accepted "out" "/data" (Some no_two) w_three).
  vm_compute. reflexivity.
Defined.

Example download_directory_sample :
  ftp_calls (trace (download_directory "out" "/data" (Some no_two) None w_three).2)
  = [Cwd "/data"; Nlst ""; Retrbinary "RETR sample.txt"; Retrbinary "RETR sample.txt1"].
Proof. vm_compute. reflexivity. Qed.

(** ** Moving a file *)

(** X11. Without [rename_existing], [move_file] renames onto a name the
    listing of the destination directory does not contain, the file's own
    name when that is free.  It makes the two calls once: a failure of the
    rename is raised as it is, not retried and not wrapped. *)
Theorem move_file_free_destination {conn : Type} `{!FTP conn} (fuel : nat)
    (ftp_src_directory ftp_dst_directory src_filename : string)
    (w : world conn) (l : list string) (s : conn) :
  ftp_nlst ftp_dst_directory (ftp_client w) = (Done l, s) →
  size (list_to_set l : gset string) < fuel →
  ∃ newname,
    (newname ∉ l)
    ∧ (src_filename ∉ l → newname = src_filename)
    ∧ move_file fuel ftp_src_directory ftp_dst_directory src_filename false w
      = (match (ftp_rename (os_path.join ftp_src_directory [src_filename])
                           (os_path.join ftp_dst_directory [newname]) s).1 with
         | Done _ => Ok newname
         | Failed e => Raise e
         end,
         World (ftp_rename (os_path.join ftp_src_directory [src_filename])
                           (os_path.join ftp_dst_directory [newname]) s).2
               (local w)
               (trace w ++ [Ftp (Nlst ftp_dst_directory);
                            Ftp (Rename (os_path.join ftp_src_directory [src_filename])
                                        (os_path.join ftp_dst_directory [newname]))])).
Proof.
  intros Hnlst Hfuel.
  destruct (unique_name_loop_spec (list_to_set l) src_filename)
    as (r & Hloop & Hfree & Hsame & _).
  rewrite elem_of_list_to_set in Hfree, Hsame.
  exists r. split_and!; [done..|].
  unfold move_file. erewrite bind_ok; last first.
  { simpl. unfold get_unique_file_name_if_exists, list_files, nlst.
    erewrite bind_ok by (by apply call_done).
    rewrite (Hloop fuel Hfuel). reflexivity. }
  unfold bind, rename, call. cbn [ftp_client local trace].
  destruct (ftp_rename _ _ s) as [[[]|e] s']; simpl; by rewrite <- app_assoc.
Qed.

Lemma move_file_free_destination_witness :
  ∃ newname,
    (newname ∉ ["src/sample.txt"])
    ∧ ("sample.txt" ∉ ["src/sample.txt"] → newname = "sample.txt")
    ∧ move_file 2 "src" "dst" "sample.txt" false (w_holding ["src/sample.txt"])
      = (match (ftp_rename (os_path.join "src" ["sample.txt"])
                           (os_path.join "dst" [newname])
                           (ftp_client (w_holding ["src/sample.txt"]))).1 with
         | Done _ => Ok newname
         | Failed e => Raise e
         end,
         World (ftp_rename (os_path.join "src" ["sample.txt"])
                           (os_path.join "dst" [newname])
                           (ftp_client (w_holding ["src/sample.txt"]))).2
               disk
               [Ftp (Nlst "dst");
                Ftp (Rename (os_path.join "src" ["sample.txt"])
                            (os_path.join "dst" [newname]))]).
Proof.
  apply (move_file_free_destination 2 "src" "dst" "sample.txt"
                                    (w_holding ["src/sample.txt"]) ["src/sample.txt"]).
  - reflexivity.
  - vm_compute. lia.
Defined.

Example move_file_sample :
  move_file 2 "src" "dst" "sample.txt" false (w_holding ["src/sample.txt"])
  = (Ok "sample.txt",
     World (Stub.Make "/" [] [("dst/sample.txt", sample_bytes)] true true) disk
           [Ftp (Nlst "dst"); Ftp (Rename "src/sample.txt" "dst/sample.txt")]).
Proof. vm_compute. reflexivity. Qed.

(** ** More on the directory ensurer *)

Lemma lstrip_id (c : ascii) (s : string) :
  Str.startswith c s = false → Str.lstrip c s = s.
Proof. destruct s as [|a s]; [done|]. simpl. by intros ->. Qed.

Lemma rstrip_id (c : ascii) (s : string) :
  Str.endswith c s = false → Str.rstrip c s = s.
Proof.
  induction s as [|a s IH]; [done|]. intros Hend. simpl.
  destruct s as [|b s].
  - simpl in *. by rewrite Hend.
  - rewrite IH by done. done.
Qed.

Lemma strip_strip (c : ascii) (s : string) :
  Str.strip c (Str.strip c s) = Str.strip c s.
Proof.
  unfold Str.strip.
  rewrite (lstrip_id c (Str.rstrip c (Str.lstrip c s)))
    by apply rstrip_startswith, lstrip_startswith.
  apply rstrip_id, rstrip_endswith.
Qed.

Lemma split_no_separator (c : ascii) (s : string) :
  Forall (λ seg, has_char c seg = false) (Str.split c s).
Proof.
  induction s as [|a s IH]; simpl; [by repeat constructor|].
  destruct (Ascii.eqb a c) eqn:Ha; [by constructor|].
  destruct (Str.split c s) as [|seg rest]; [by repeat constructor; simpl; rewrite Ha|].
  apply Forall_cons in IH as [Hseg Hrest]. constructor; [|done].
  simpl. by rewrite Ha, Hseg.
Qed.

(** X12. Separators at the ends of the path make no difference to
    [makedirs]: it does for a path what it does for the path without its
    leading and trailing ['/']. *)
Theorem makedirs_ignores_outer_separators {conn : Type} `{!FTP conn}
    (path base_directory : string) (w : world conn) :
  makedirs (Str.strip "/" path) base_directory w = makedirs path base_directory w.
Proof. unfold makedirs. by rewrite strip_strip. Qed.

(** X13. Whatever the path and however [makedirs] ends, every directory it
    asks the server to make is a single component: its name has no ['/'] in
    it. *)
Theorem makedirs_makes_single_components {conn : Type} `{!FTP conn}
    (path base_directory : string) (w : world conn) :
  ∃ done,
    trace (makedirs path base_directory w).2 = trace w ++ done
    ∧ ∀ d, Ftp (Mkd d) ∈ done → has_char "/" d = false.
Proof.
  destruct (makedirs_trace path base_directory w) as (done & Htrace & [k Hk] & _).
  exists done. split; [done|]. intros d Hd.
  assert (Ftp (Mkd d) ∈ done ++ k) as Hall by (apply elem_of_app; by left).
  rewrite <- Hk in Hall. unfold makedirs_calls in Hall.
  apply elem_of_app in Hall as [Hfirst|Hrest].
  { apply list_elem_of_In in Hfirst. by destruct Hfirst as [[=]|[]]. }
  apply elem_of_app in Hrest as [Hsteps|Hlast]; last first.
  { apply list_elem_of_In in Hlast. by destruct Hlast as [[=]|[]]. }
  apply list_elem_of_In, in_flat_map in Hsteps as (x & Hx & Hd').
  apply list_elem_of_In in Hx. simpl in Hd'.
  destruct Hd' as [[= ->]|[[=]|[]]].
  pose proof (split_no_separator "/" (Str.strip "/" path)) as Hsplit.
  rewrite Forall_forall in Hsplit. by apply Hsplit.
Qed.

Lemma makedirs_makes_single_components_witness :
  ∃ done,
    trace (makedirs "a//b" "/" w_stub).2 = trace w_stub ++ done
    ∧ ∀ d, Ftp (Mkd d) ∈ done → has_char "/" d = false.
Proof. exact (makedirs_makes_single_components "a//b" "/" w_stub). Defined.

(** ** The shape of a renamed name *)

Lemma append_nil_r (s : string) : s +:+ "" = s.
Proof.
  induction s as [|a s IH]; [done|].
  change (String a (s +:+ "") = String a s). by rewrite IH.
Qed.

Lemma append_cons (a : ascii) (s t : string) : String a s +:+ t = String a (s +:+ t).
Proof. done. Qed.

Lemma append_snoc (pre : string) (a : ascii) (t : string) :
  (pre +:+ String a "") +:+ t = pre +:+ String a t.
Proof.
  induction pre as [|b pre IH]; [done|].
  rewrite !append_cons. by rewrite IH.
Qed.

Lemma has_char_app (c : ascii) (s t : string) :
  has_char c (s +:+ t) = has_char c s || has_char c t.
Proof.
  induction s as [|a s IH]; [done|].
  rewrite append_cons. simpl. rewrite IH. by rewrite orb_assoc.
Qed.

Lemma rfind_lower (c : ascii) (s : string) : (-1 ≤ Str.rfind c s)%Z.
Proof.
  induction s as [|a s IH]; simpl; [lia|].
  destruct (0 <=? Str.rfind c s)%Z eqn:H; [lia|]. destruct (Ascii.eqb a c); lia.
Qed.

Lemma rfind_none (c : ascii) (s : string) :
  has_char c s = false → Str.rfind c s = (-1)%Z.
Proof.
  induction s as [|a s IH]; simpl; [done|].
  intros [Ha Hs]%orb_false_elim. rewrite IH by done. simpl. by rewrite Ha.
Qed.

Lemma rfind_last (c : ascii) (stem e : string) :
  has_char c e = false →
  Str.rfind c (stem +:+ String c e) = Z.of_nat (String.length stem).
Proof.
  intros He. induction stem as [|a stem IH].
  - change ("" +:+ String c e) with (String c e). simpl.
    rewrite rfind_none by done. simpl. by rewrite Ascii.eqb_refl.
  - rewrite append_cons. simpl. rewrite IH.
    destruct (0 <=? Z.of_nat (String.length stem))%Z eqn:H; lia.
Qed.

Lemma substring_skip (pre t : string) (n : nat) :
  String.substring (String.length pre) n (pre +:+ t) = String.substring 0 n t.
Proof. induction pre as [|a pre IH]; [done|]. rewrite append_cons. simpl. apply IH. Qed.

Lemma substring_take (stem t : string) :
  String.substring 0 (String.length stem) (stem +:+ t) = stem.
Proof.
  induction stem as [|a stem IH].
  - simpl. by destruct t.
  - rewrite append_cons. simpl. by rewrite IH.
Qed.

Lemma slice1_at (pre : string) (a : ascii) (t : string) :
  Str.slice1 (Z.of_nat (String.length pre)) (pre +:+ String a t) = String a "".
Proof.
  unfold Str.slice1. rewrite Nat2Z.id, substring_skip. simpl. by destruct t.
Qed.

(** The scan over the leading dots of the last component ends at its first
    character that is not a dot. *)
Lemma splitext_scan_stops (s pre t : string) (n : nat) (dotIndex : Z) :
  Str.lstrip "." s ≠ "" →
  String.length s ≤ n →
  os_path.splitext_scan n (pre +:+ s +:+ t) (Z.of_nat (String.length pre)) dotIndex
  = Some (Str.slice_to dotIndex (pre +:+ s +:+ t),
          Str.slice_from dotIndex (pre +:+ s +:+ t)).
Proof.
  revert pre n. induction s as [|a s IH]; intros pre n Hdots Hn; [done|].
  destruct n as [|n]; [simpl in Hn; lia|].
  rewrite append_cons. cbn [os_path.splitext_scan]. rewrite slice1_at.
  simpl in Hdots. cbn [String.eqb].
  destruct (Ascii.eqb a ".") eqn:Ha; [|done].
  apply Ascii.eqb_eq in Ha as ->. cbn [negb].
  rewrite <- (append_snoc pre "." (s +:+ t)).
  replace (Z.of_nat (String.length pre) + 1)%Z
    with (Z.of_nat (String.length (pre +:+ "."))) by (rewrite append_length; simpl; lia).
  apply IH; [done | simpl in Hn; lia].
Qed.

(** A name [stem.ext] is split at its last dot. *)
Lemma splitext_stem_ext (stem ext : string) :
  has_char "/" stem = false → Str.lstrip "." stem ≠ "" →
  has_char "/" ext = false → has_char "." ext = false →
  os_path.splitext (stem +:+ "." +:+ ext) = (stem, "." +:+ ext).
Proof.
  intros Hstem Hdots Hext Hlast.
  change ("." +:+ ext) with (String "." ext).
  unfold os_path.splitext.
  rewrite (rfind_none "/") by (rewrite has_char_app; simpl; by rewrite Hstem, Hext).
  rewrite rfind_last by done.
  destruct (-1 <? Z.of_nat (String.length stem))%Z eqn:Hlt;
    [|apply Z.ltb_ge in Hlt; lia].
  replace (Z.to_nat (Z.of_nat (String.length stem) - (-1 + 1))) with (String.length stem)
    by lia.
  pose proof (splitext_scan_stops stem "" (String "." ext) (String.length stem)
                (Z.of_nat (String.length stem)) Hdots (le_n _)) as Hscan.
  change ("" +:+ stem +:+ String "." ext) with (stem +:+ String "." ext) in Hscan.
  change (Z.of_nat (String.length "")) with (-1 + 1)%Z in Hscan.
  rewrite Hscan. unfold Str.slice_to, Str.slice_from. rewrite Nat2Z.id.
  rewrite substring_take, substring_skip, append_length.
  replace (String.length stem + String.length (String "." ext) - String.length stem)
    with (String.length (String "." ext)) by lia.
  by rewrite substring_all.
Qed.

(** A name without a dot has no extension. *)
Lemma splitext_no_dot (name : string) :
  has_char "." name = false → os_path.splitext name = (name, "").
Proof.
  intros Hname. unfold os_path.splitext. rewrite (rfind_none ".") by done.
  pose proof (rfind_lower "/" name).
  destruct (Str.rfind "/" name <? -1)%Z eqn:Hlt; [|done].
  apply Z.ltb_lt in Hlt. lia.
Qed.

(** X14. The candidates of the unique-name loop carry the number before the
    extension.  For a file name [stem.ext], where [ext] has no dot and no
    separator in it and [stem] has no separator and is not made of dots
    only, the name is split into [stem] and [.ext], and the k-th candidate
    is [stem-k.ext]: [sample.txt] gives [sample-1.txt], not
    [sample.txt-1].  For a name without a dot the candidate is the name
    followed by [-k]. *)
Theorem variant_keeps_root_and_extension (stem ext : string) (k : nat) :
  has_char "/" stem = false → Str.lstrip "." stem ≠ "" →
  has_char "/" ext = false → has_char "." ext = false →
  os_path.splitext (stem +:+ "." +:+ ext) = (stem, "." +:+ ext)
  ∧ variant (stem +:+ "." +:+ ext) k = stem +:+ "-" +:+ pretty k +:+ "." +:+ ext
  ∧ ∀ name, has_char "." name = false → variant name k = name +:+ "-" +:+ pretty k.
Proof.
  intros Hstem Hdots Hext Hlast.
  pose proof (splitext_stem_ext stem ext Hstem Hdots Hext Hlast) as Hsplit.
  split_and!; [done| |].
  - unfold variant, format_name. by rewrite Hsplit.
  - intros name Hname. unfold variant, format_name.
    rewrite (splitext_no_dot name Hname). simpl. by rewrite append_nil_r.
Qed.

Lemma variant_keeps_root_and_extension_witness :
  os_path.splitext "sample.txt" = ("sample", ".txt")
  ∧ variant "sample.txt" 1 = "sample-1.txt"
  ∧ ∀ name, has_char "." name = false → variant name 1 = name +:+ "-" +:+ pretty 1.
Proof.
  apply (variant_keeps_root_and_extension "sample" "txt" 1).
  - reflexivity.
  - vm_compute. discriminate.
  - reflexivity.
  - reflexivity.
Defined.

(** ** Where a directory cannot be made *)

Section MkdRefused.
Context {conn : Type} `{!FTP conn}.
Variables (fuel : nat) (local_directory file_name ftp_directory : string).
Variable rename_existing : bool.
Variables (subpath : string) (rest : list string) (e : exn).

Hypothesis first_segment :
  Str.split "/" (Str.strip "/" ftp_directory) = subpath :: rest.
Hypothesis root_entered : ∀ s, ∃ s', ftp_cwd "/" s = (Done tt, s').
Hypothesis mkd_refused : ∀ s, ∃ s', ftp_mkd subpath s = (Failed e, s').
Hypothesis transport_error : ftplib_all_errors e = true.

Lemma upload_file_body_mkd_refused (w : world conn) :
  regular_file (local w) (os_path.join local_directory [file_name]) →
  ∃ s, upload_file_body fuel local_directory file_name ftp_directory rename_existing w
       = (Raise e, World s (local w) (trace w ++ [Ftp (Cwd "/"); Ftp (Mkd subpath)])).
Proof.
  intros [content Hfile].
  destruct (root_entered (ftp_client w)) as [s1 Hcwd].
  destruct (mkd_refused s1) as [s2 Hmkd].
  exists s2. unfold upload_file_body.
  remember (os_path.join local_directory [file_name]) as p eqn:Hp.
  erewrite bind_ok by reflexivity. erewrite bind_ok by reflexivity.
  rewrite Hfile. simpl.
  erewrite bind_raise; [reflexivity|].
  unfold makedirs. erewrite bind_ok by (by apply call_done).
  rewrite first_segment. erewrite bind_raise; [reflexivity|].
  cbn [for_each]. erewrite bind_raise; [reflexivity|].
  erewrite bind_raise; [reflexivity|].
  unfold mkd. erewrite call_failed by done. simpl. by rewrite <- app_assoc.
Qed.

(** X15. Where the server refuses to make the first directory of the path
    (it is there already, say), [upload_file] gets no further: each of its
    three attempts changes to ["/"], asks for the directory and stops there,
    and the call ends in [RetryError] around the refusal.  Nothing is
    listed and nothing is stored; the directory is never just entered. *)
Theorem upload_file_fails_where_mkd_refused (w : world conn) :
  regular_file (local w) (os_path.join local_directory [file_name]) →
  ∃ s, upload_file fuel local_directory file_name ftp_directory rename_existing w
       = (Raise (RetryError e),
          World s (local w)
                (trace w ++ [Ftp (Cwd "/"); Ftp (Mkd subpath); Sleep 5;
                             Ftp (Cwd "/"); Ftp (Mkd subpath); Sleep 5;
                             Ftp (Cwd "/"); Ftp (Mkd subpath)])).
Proof.
  intros Hfile. unfold upload_file. rewrite retry_unfold.
  destruct (upload_file_body_mkd_refused w Hfile) as [s1 ->].
  rewrite transport_error.
  match goal with
  | |- context [upload_file_body _ _ _ _ _ ?w1] =>
      destruct (upload_file_body_mkd_refused w1 Hfile) as [s2 ->]
  end.
  rewrite transport_error.
  match goal with
  | |- context [upload_file_body _ _ _ _ _ ?w2] =>
      destruct (upload_file_body_mkd_refused w2 Hfile) as [s3 ->]
  end.
  rewrite transport_error. exists s3. simpl. by rewrite <- !app_assoc.
Qed.

End MkdRefused.

Lemma upload_file_fails_where_mkd_refused_witness :
  ∃ s, upload_file 3 "test/data" "sample.txt" "test/data/" false w_refusing
       = (Raise (RetryError Refusing.refused),
          World s disk
                [Ftp (Cwd "/"); Ftp (Mkd "test"); Sleep 5;
                 Ftp (Cwd "/"); Ftp (Mkd "test"); Sleep 5;
                 Ftp (Cwd "/"); Ftp (Mkd "test")]).
Proof.
  apply (upload_file_fails_where_mkd_refused 3 "test/data" "sample.txt" "test/data/" false
           "test" ["data"] Refusing.refused).
  - reflexivity.
  - intros s. eexists. reflexivity.
  - intros s. eexists. reflexivity.
  - reflexivity.
  - exists sample_bytes. vm_compute. reflexivity.
Defined.
